(** * types-publisher: publishing the [types-registry] package

    A shallow embedding of [publish-registry.ts] (the registry publisher of
    types-publisher).  The program is a sequence of calls to collaborators
    (the registry, the npm client, the file system, the clock, the logger)
    with a little pure logic in between.  The collaborators are not part of
    the program, so a program is embedded as a tree of calls: every call
    names the collaborator operation and its arguments, and the tree
    continues with whatever the collaborator answers.  A run of the program
    is the list of calls it made, each with its answer, and the way it
    ended. *)

From Stdlib Require Import QArith.
From stdpp Require Import gmap strings list fin_maps pretty.

Open Scope Z_scope.
Open Scope string_scope.
Open Scope list_scope.

(** ** Data *)

(** JS objects used as dictionaries (a package's distribution tags, the
    entries of a registry) are finite maps from their own enumerable
    property names.  The keys are taken to be ordinary names, none of those
    that every object inherits, so that [k in o], [o[k]] and a lookup among
    the own properties agree.  The order in which [for ... in] visits the
    keys is the order of [map_to_list]. *)
Abbreviation Tags := (gmap string string).

(** [interface Registry { entries: { [packageName]: { [distTags]: string } } }] *)
Record Registry := { entries : gmap string Tags }.

(** Modelled from the spec: the [Semver] class of [lib/versions] is not
    part of the sources at hand.  A semantic version is major.minor.patch;
    [equals] compares the three components and [versionString] prints them
    separated by dots. *)
Record Semver := { major : N; minor : N; patch : N }.

Definition equals (a b : Semver) : bool :=
  (major a =? major b)%N && (minor a =? minor b)%N && (patch a =? patch b)%N.

Definition versionString (v : Semver) : string :=
  pretty (major v) +:+ "." +:+ pretty (minor v) +:+ "." +:+ pretty (patch v).

(** What [fetchAndProcessNpmInfo] resolves to.  [lastModified] is a [Date],
    kept as its [getTime()] value in milliseconds. *)
Record ProcessedNpmInfo := {
  version : Semver;
  highestSemverVersion : Semver;
  contentHash : string;
  lastModified : Z;
}.

(** What [fetchNpmInfo] resolves to; only ["dist-tags"] is read, and it may
    be missing. *)
Record NpmInfo := { dist_tags : option Tags }.

(** The two fields of [TypingsData] that are read here. *)
Record TypingsData := { fullEscapedNpmName : string; name : string }.

(** The field of [NotNeededPackage] that is read here. *)
Record NotNeededPackage := { nn_name : string }.

Record Options := { fetchParallelism : N }.

(** Handles on collaborators: the program only passes them around. *)
Record Fetcher := { fetcher_id : N }.
Record NpmClient := { client_id : N }.

(** JSON values as the program writes them (object literals keep the order
    of their fields). *)
#[warnings="-register-all"]
Inductive Json :=
| JString (s : string)
| JArray (items : list Json)
| JObject (fields : list (string * Json)).

Fixpoint field (k : string) (fields : list (string * Json)) : option Json :=
  match fields with
  | [] => None
  | (k', v) :: rest => if String.eqb k k' then Some v else field k rest
  end.

Definition get (k : string) (j : Json) : option Json :=
  match j with
  | JObject fields => field k fields
  | _ => None
  end.

(** What can be thrown: a failed [assert.equal], or an [Error] with a
    message.  A collaborator that fails may throw either. *)
Inductive Err :=
| AssertionError (actual expected : N)
| Error (message : string).

(** ** Calls to collaborators *)

Inductive Call : Type -> Type :=
| Log (message : string) : Call unit
| LogResult : Call (list string)
| DateNow : Call Z
| ConsoleError (message : string) : Call unit
| Sleep (seconds : N) : Call unit
| FetchAndProcessNpmInfo (escapedPackageName : string) (fetcher : Fetcher)
    : Call ProcessedNpmInfo
| NpmClientCreate (defaultTag : string) : Call NpmClient
| ReadTypings : Call (list TypingsData)
| FetchNpmInfo (escapedPackageName : string) (fetcher : Fetcher) : Call NpmInfo
| ReadNotNeededPackages (options : Options) : Call (list NotNeededPackage)
| EmptyDir (dir : string) : Call unit
| WriteJson (path : string) (content : Json) : Call unit
| WriteFile (path : string) (content : string) : Call unit
| ReadJson (path : string) : Call Registry
| AssertDirectoriesEqual (expected actual : string) (ignore : string -> bool)
    : Call unit
| ExecAndThrowErrors (cmd cwd : string) : Call string
| ClientPublish (client : NpmClient) (publishedDirectory : string)
    (packageJson : Json) (dry : bool) : Call unit
| ClientTag (client : NpmClient) (packageName version tag : string) : Call unit
| WriteLog (logName : string) (contents : list string) : Call unit.

(** The logger, the clock, [console.error] and the timer behind [sleep] do
    not fail; every other call does I/O and may throw. *)
Definition infallible {X} (c : Call X) : bool :=
  match c with
  | Log _ | LogResult | DateNow | ConsoleError _ | Sleep _ => true
  | _ => false
  end.

(** A call together with its answer, as it appears in the record of a run. *)
Inductive Event :=
| ELog (message : string) (r : Err + unit)
| ELogResult (r : Err + list string)
| EDateNow (r : Err + Z)
| EConsoleError (message : string) (r : Err + unit)
| ESleep (seconds : N) (r : Err + unit)
| EFetchAndProcessNpmInfo (escapedPackageName : string) (fetcher : Fetcher)
    (r : Err + ProcessedNpmInfo)
| ENpmClientCreate (defaultTag : string) (r : Err + NpmClient)
| EReadTypings (r : Err + list TypingsData)
| EFetchNpmInfo (escapedPackageName : string) (fetcher : Fetcher)
    (r : Err + NpmInfo)
| EReadNotNeededPackages (options : Options) (r : Err + list NotNeededPackage)
| EEmptyDir (dir : string) (r : Err + unit)
| EWriteJson (path : string) (content : Json) (r : Err + unit)
| EWriteFile (path : string) (content : string) (r : Err + unit)
| EReadJson (path : string) (r : Err + Registry)
| EAssertDirectoriesEqual (expected actual : string) (ignore : string -> bool)
    (r : Err + unit)
| EExecAndThrowErrors (cmd cwd : string) (r : Err + string)
| EClientPublish (client : NpmClient) (publishedDirectory : string)
    (packageJson : Json) (dry : bool) (r : Err + unit)
| EClientTag (client : NpmClient) (packageName version tag : string)
    (r : Err + unit)
| EWriteLog (logName : string) (contents : list string) (r : Err + unit).

Definition event {X} (c : Call X) : Err + X -> Event :=
  match c in Call X return Err + X -> Event with
  | Log m => ELog m
  | LogResult => ELogResult
  | DateNow => EDateNow
  | ConsoleError m => EConsoleError m
  | Sleep s => ESleep s
  | FetchAndProcessNpmInfo n f => EFetchAndProcessNpmInfo n f
  | NpmClientCreate d => ENpmClientCreate d
  | ReadTypings => EReadTypings
  | FetchNpmInfo n f => EFetchNpmInfo n f
  | ReadNotNeededPackages o => EReadNotNeededPackages o
  | EmptyDir d => EEmptyDir d
  | WriteJson p c => EWriteJson p c
  | WriteFile p c => EWriteFile p c
  | ReadJson p => EReadJson p
  | AssertDirectoriesEqual e a i => EAssertDirectoriesEqual e a i
  | ExecAndThrowErrors c d => EExecAndThrowErrors c d
  | ClientPublish c d p dry => EClientPublish c d p dry
  | ClientTag c n v t => EClientTag c n v t
  | WriteLog n c => EWriteLog n c
  end.

(** ** Programs *)

Inductive Prog (A : Type) : Type :=
| Ret (a : A)
| Throw (e : Err)
| Do {X : Type} (c : Call X) (k : X -> Prog A).

Arguments Ret {A} a.
Arguments Throw {A} e.
Arguments Do {A X} c k.

Fixpoint bind {A B} (p : Prog A) (f : A -> Prog B) : Prog B :=
  match p with
  | Ret a => f a
  | Throw e => Throw e
  | Do c k => Do c (fun x => bind (k x) f)
  end.

#[export] Instance Prog_ret : MRet Prog := @Ret.
#[export] Instance Prog_bind : MBind Prog := fun A B f p => bind p f.

(** [await collaborator(args)] *)
Definition call {X} (c : Call X) : Prog X := Do c Ret.

(** How a run ends. *)
Inductive Outcome (A : Type) :=
| Returned (a : A)
| Thrown (e : Err).

Arguments Returned {A} a.
Arguments Thrown {A} e.

(** [exec p t o]: the program [p] can make exactly the calls recorded in
    [t], receiving the recorded answers, and then ends as [o].  A call that
    throws ends the run, since the program catches nothing. *)
Fixpoint exec {A} (p : Prog A) (t : list Event) (o : Outcome A) : Prop :=
  match p with
  | Ret a => t = [] /\ o = Returned a
  | Throw e => t = [] /\ o = Thrown e
  | Do c k =>
      (infallible c = false /\ exists e, t = [event c (inl e)] /\ o = Thrown e)
      \/ (exists x t', t = event c (inr x) :: t' /\ exec (k x) t' o)
  end.

(** The collaborators as an oracle: the answer to a call, given the record
    of the run so far (latest event first). *)
Definition Oracle := forall X, Call X -> list Event -> Err + X.

(** Runs a program against an oracle; the record comes out latest first. *)
Fixpoint run_from {A} (w : Oracle) (h : list Event) (p : Prog A)
  : list Event * Outcome A :=
  match p with
  | Ret a => (h, Returned a)
  | Throw e => (h, Thrown e)
  | Do c k =>
      match w _ c h with
      | inl e => (event c (inl e) :: h, Thrown e)
      | inr x => run_from w (event c (inr x) :: h) (k x)
      end
  end.

Definition run {A} (w : Oracle) (p : Prog A) : list Event * Outcome A :=
  let (h, o) := run_from w [] p in (rev h, o).

(** ** The program *)

(** What the program takes from its surroundings without defining it:
    the two configured directories of [lib/settings], [joinPaths] and
    [computeHash] of [util/util], [npmInstallFlags] of [util/io], Node's
    [__dirname], and [JSON.stringify] on a registry. *)
Record Host := {
  outputPath : string;
  validateOutputPath : string;
  joinPaths : list string -> string;
  computeHash : string -> string;
  npmInstallFlags : string;
  dirname : string;
  stringify : Registry -> string;
}.

Definition packageName : string := "types-registry".

Definition readme : string :=
  "This package contains a listing of all packages published to the @types scope on NPM."
  +:+ String (Ascii.ascii_of_nat 10)
        "Generated by [types-publisher](https://github.com/Microsoft/types-publisher).".

Definition millisecondsPerDay : Z := 1000 * 60 * 60 * 24.

(** [assert.equal(actual, expected)] on numbers. *)
Definition assert_equal (actual expected : N) : Prog unit :=
  if (actual =? expected)%N then Ret tt else Throw (AssertionError actual expected).

(** [days > 7] for [days = diff / millisecondsPerDay].  The quotient is
    taken exactly; rounding it to a double does not change the comparison
    with 7, because rounding is monotone and 7 is a double. *)
Definition more_than_a_week (now time : Z) : bool :=
  let diff := now - time in
  let days := (inject_Z diff / inject_Z millisecondsPerDay)%Q in
  negb (Qle_bool days 7).

Definition isAWeekAfter (time : Z) : Prog bool :=
  now ← call DateNow;
  mret (more_than_a_week now time).

(** The inner function of [generateRegistry].  The loop visits every own
    key [tag] of [tags]; [v] is [tags[tag]]. *)
Definition filterTags (tags : Tags) : Tags :=
  let latestTag := "latest" in
  let latestVersion := tags !! latestTag in
  map_fold (fun tag v out =>
      if bool_decide (tag = latestTag) || negb (bool_decide (Some v = latestVersion))
      then <[tag := v]> out
      else out)
    ∅ tags.

(** [String.prototype.trim], on the ASCII white space. *)
Fixpoint trimStart (s : string) : string :=
  match s with
  | String c s' => if Ascii.is_space c then trimStart s' else s
  | EmptyString => EmptyString
  end.

Definition trim (s : string) : string :=
  String.rev (trimStart (String.rev (trimStart s))).

Definition generatePackageJson (version typesPublisherContentHash : string) : Json :=
  JObject [
    ("name", JString packageName);
    ("version", JString version);
    ("description", JString "A registry of TypeScript declaration file packages published within the @types scope.");
    ("repository", JObject [
      ("type", JString "git");
      ("url", JString "https://github.com/Microsoft/types-publisher.git") ]);
    ("keywords", JArray [
      JString "TypeScript";
      JString "declaration";
      JString "files";
      JString "types";
      JString "packages" ]);
    ("author", JString "Microsoft Corp.");
    ("license", JString "MIT");
    ("typesPublisherContentHash", JString typesPublisherContentHash) ].

Section Publisher.

Variable host : Host.

Definition registryOutputPath : string :=
  joinPaths host [outputPath host; packageName].

Definition validateTypesRegistryPath : string :=
  joinPaths host [validateOutputPath host; "node_modules"; "types-registry"].

(** Modelled from the spec: [nAtATime] of [util/util] is not part of the
    sources at hand.  It runs the callback on every element with a bounded
    number in flight; the fetches are independent and insensitive to order,
    so they are made here one after the other, in the order of the list. *)
Fixpoint generateRegistry_entries (typings : list TypingsData) (fetcher : Fetcher)
    (entries : gmap string Tags) : Prog (gmap string Tags) :=
  match typings with
  | [] => mret entries
  | typing :: typings' =>
      info ← call (FetchNpmInfo (fullEscapedNpmName typing) fetcher);
      generateRegistry_entries typings' fetcher
        match dist_tags info with
        | Some tags => <[name typing := filterTags tags]> entries
        | None => entries
        end
  end.

Definition generateRegistry (typings : list TypingsData) (fetcher : Fetcher)
    (options : Options) : Prog Registry :=
  entries ← generateRegistry_entries typings fetcher ∅;
  mret {| entries := entries |}.

Definition generate (registry : string) (packageJson : Json) : Prog unit :=
  let outputPath filename := joinPaths host [registryOutputPath; filename] in
  call (EmptyDir registryOutputPath);;
  call (WriteJson (outputPath "package.json") packageJson);;
  call (WriteFile (outputPath "index.json") registry);;
  call (WriteFile (outputPath "README.md") readme).

Definition installForValidate : Prog unit :=
  call (EmptyDir (validateOutputPath host));;
  call (WriteJson (joinPaths host [validateOutputPath host; "package.json"])
    (JObject [
      ("name", JString "validate");
      ("version", JString "0.0.0");
      ("description", JString "description");
      ("readme", JString EmptyString);
      ("license", JString EmptyString);
      ("repository", JObject []) ]));;
  let npmPath :=
    joinPaths host [dirname host; ".."; "node_modules"; "npm"; "bin"; "npm-cli.js"] in
  out ← call (ExecAndThrowErrors
    ("node " +:+ npmPath +:+ " install types-registry@next " +:+ npmInstallFlags host)
    (validateOutputPath host));
  let err := trim out in
  if bool_decide (err = EmptyString) then mret tt else call (ConsoleError err).

Definition validate : Prog unit :=
  installForValidate;;
  call (AssertDirectoriesEqual registryOutputPath validateTypesRegistryPath
    (fun f => String.eqb f "package.json")).

(** The loop of [validateIsSubset] over the keys of [actual.entries]. *)
Fixpoint check_keys (keys : list string) (expected : Registry)
    (notNeeded : list NotNeededPackage) : Prog unit :=
  match keys with
  | [] => mret tt
  | key :: keys' =>
      if negb (bool_decide (is_Some (entries expected !! key)))
         && negb (existsb (fun p => String.eqb (nn_name p) key) notNeeded)
      then Throw (Error ("Actual types-registry has unexpected key " +:+ key))
      else check_keys keys' expected notNeeded
  end.

Definition validateIsSubset (notNeeded : list NotNeededPackage) : Prog unit :=
  installForValidate;;
  let indexJson := "index.json" in
  call (AssertDirectoriesEqual registryOutputPath validateTypesRegistryPath
    (fun f => String.eqb f "package.json" || String.eqb f indexJson));;
  actual ← call (ReadJson (joinPaths host [validateTypesRegistryPath; indexJson]));
  expected ← call (ReadJson (joinPaths host [registryOutputPath; indexJson]));
  check_keys (map_to_list (entries actual)).*1 expected notNeeded.

Definition publish (client : NpmClient) (packageJson : Json) (version : string)
    (dry : bool) : Prog unit :=
  call (ClientPublish client registryOutputPath packageJson dry);;
  call (Sleep 20);;
  validate;;
  call (ClientTag client packageName version "latest").

Definition main (options : Options) (dry : bool) (fetcher : Fetcher) : Prog unit :=
  call (Log "=== Publishing types-registry ===");;
  info ← call (FetchAndProcessNpmInfo packageName fetcher);
  let oldVersion := version info in
  let oldContentHash := contentHash info in
  after ← isAWeekAfter (lastModified info);
  if negb after then
    call (Log "Was modified less than a week ago, so do nothing.")
  else
    client ← call (NpmClientCreate "next");
    typings ← call ReadTypings;
    generated ← generateRegistry typings fetcher options;
    let registry := stringify host generated in
    let newContentHash := computeHash host registry in
    assert_equal (major oldVersion) 0;;
    assert_equal (minor oldVersion) 1;;
    let newVersion := "0.1." +:+ pretty (patch oldVersion + 1)%N in
    let packageJson := generatePackageJson newVersion newContentHash in
    generate registry packageJson;;
    (if negb (equals (highestSemverVersion info) oldVersion) then
       call (Log "Old version of types-registry was never tagged latest, so updating");;
       notNeeded ← call (ReadNotNeededPackages options);
       validateIsSubset notNeeded;;
       call (ClientTag client packageName
         (versionString (highestSemverVersion info)) "latest")
     else if negb (String.eqb oldContentHash newContentHash) then
       call (Log "New packages have been added, so publishing a new registry.");;
       publish client packageJson newVersion dry
     else
       call (Log "No new packages published, so no need to publish new registry.");;
       validate);;
    logged ← call LogResult;
    call (WriteLog "publish-registry.md" logged).

End Publisher.

(** ** Vocabulary of the statements *)

(** Uploading, tagging, and the calls through which an installed copy is
    compared with the generated bundle. *)
Definition is_publish (e : Event) : bool :=
  match e with EClientPublish _ _ _ _ _ => true | _ => false end.

Definition is_tag (e : Event) : bool :=
  match e with EClientTag _ _ _ _ _ => true | _ => false end.

Definition is_validation (e : Event) : bool :=
  match e with
  | EExecAndThrowErrors _ _ _ | EAssertDirectoriesEqual _ _ _ _ | EReadJson _ _ => true
  | _ => false
  end.

(** Changes to the disk: what [generate] and [installForValidate] do. *)
Definition is_write (e : Event) : bool :=
  match e with
  | EEmptyDir _ _ | EWriteJson _ _ _ | EWriteFile _ _ _ => true
  | _ => false
  end.

(** The per-package query of the registry in [generateRegistry]. *)
Definition is_package_fetch (e : Event) : bool :=
  match e with EFetchNpmInfo _ _ _ => true | _ => false end.

(** The old version with its patch component incremented by one. *)
Definition next_patch (v : Semver) : Semver :=
  {| major := major v; minor := minor v; patch := (patch v + 1)%N |}.


(** Neither an upload nor a tag. *)
Definition quiet (e : Event) : Prop := is_publish e = false /\ is_tag e = false.

(** An oracle that never lets an infallible call throw. *)
Definition well_behaved (w : Oracle) : Prop :=
  forall X (c : Call X) h e, w X c h = inl e -> infallible c = false.

(** How every run starts, when the registry answers with [info] and the
    clock shows [now]. *)
Definition started (fetcher : Fetcher) (info : ProcessedNpmInfo) (now : Z)
  : list Event :=
  [ ELog "=== Publishing types-registry ===" (inr tt);
    EFetchAndProcessNpmInfo packageName fetcher (inr info);
    EDateNow (inr now) ].

(** How a run goes on past the staleness guard, up to the list of typings. *)
Definition prepared (fetcher : Fetcher) (info : ProcessedNpmInfo) (now : Z)
    (client : NpmClient) (typings : list TypingsData) : list Event :=
  started fetcher info now
  ++ [ ENpmClientCreate "next" (inr client); EReadTypings (inr typings) ].

(** The bundle as [generate] writes it, every write succeeding. *)
Definition regenerated (host : Host) (registry : string) (packageJson : Json)
  : list Event :=
  [ EEmptyDir (registryOutputPath host) (inr tt);
    EWriteJson (joinPaths host [registryOutputPath host; "package.json"])
      packageJson (inr tt);
    EWriteFile (joinPaths host [registryOutputPath host; "index.json"])
      registry (inr tt);
    EWriteFile (joinPaths host [registryOutputPath host; "README.md"])
      readme (inr tt) ].

(** The comparison of the generated bundle with the installed copy. *)
Definition compared (host : Host) (ignore : string -> bool) (r : Err + unit)
  : Event :=
  EAssertDirectoriesEqual (registryOutputPath host)
    (validateTypesRegistryPath host) ignore r.

(** The upload of the generated bundle. *)
Definition uploaded (host : Host) (client : NpmClient) (packageJson : Json)
    (dry : bool) (r : Err + unit) : Event :=
  EClientPublish client (registryOutputPath host) packageJson dry r.

(** The three-way branch of [main] and what follows it, under names, so
    that lemmas can speak of the part of a run that they cover. *)
Definition branch (host : Host) (options : Options) (dry : bool)
    (client : NpmClient) (info : ProcessedNpmInfo)
    (newContentHash : string) (packageJson : Json) (newVersion : string)
  : Prog unit :=
  if negb (equals (highestSemverVersion info) (version info)) then
    call (Log "Old version of types-registry was never tagged latest, so updating");;
    notNeeded ← call (ReadNotNeededPackages options);
    validateIsSubset host notNeeded;;
    call (ClientTag client packageName
      (versionString (highestSemverVersion info)) "latest")
  else if negb (String.eqb (contentHash info) newContentHash) then
    call (Log "New packages have been added, so publishing a new registry.");;
    publish host client packageJson newVersion dry
  else
    call (Log "No new packages published, so no need to publish new registry.");;
    validate host.

Definition writeLogs : Prog unit :=
  logged ← call LogResult;
  call (WriteLog "publish-registry.md" logged).

(** ** A sample world

    A host and collaborators with fixed answers, to run the program on.
    The hash and the serialisation are stand-ins: the program only needs
    them to be functions. *)
Module Sample.

Definition tags_to_string (tags : Tags) : string :=
  String.concat "," (map (fun kv => kv.1 +:+ "=" +:+ kv.2) (map_to_list tags)).

Definition host : Host := {|
  outputPath := "output";
  validateOutputPath := "validateOutput";
  joinPaths := String.concat "/";
  computeHash := fun s => "hash of " +:+ s;
  npmInstallFlags := "--ignore-scripts";
  dirname := "bin";
  stringify := fun r =>
    String.concat ";"
      (map (fun kv => kv.1 +:+ ":" +:+ tags_to_string kv.2)
         (map_to_list (entries r)));
|}.

Definition options : Options := {| fetchParallelism := 25 |}.
Definition fetcher : Fetcher := {| fetcher_id := 1 |}.
Definition client : NpmClient := {| client_id := 1 |}.

Definition typings : list TypingsData :=
  [ {| fullEscapedNpmName := "@types%2fjquery"; name := "jquery" |};
    {| fullEscapedNpmName := "@types%2fnode"; name := "node" |};
    {| fullEscapedNpmName := "@types%2fnever-published"; name := "never-published" |} ].

(** What the registry says about each package. *)
Definition package_info (escapedName : string) : NpmInfo :=
  if String.eqb escapedName "@types%2fjquery" then
    {| dist_tags := Some (<["latest" := "3.5.0"]> (<["ts2.0" := "3.5.0"]>
                          (<["ts1.8" := "2.0.1"]> ∅))) |}
  else if String.eqb escapedName "@types%2fnode" then
    {| dist_tags := Some (<["latest" := "12.0.0"]> ∅) |}
  else {| dist_tags := None |}.

Definition fetches : list Event :=
  map (fun typing =>
         EFetchNpmInfo (fullEscapedNpmName typing) fetcher
           (inr (package_info (fullEscapedNpmName typing))))
    typings.

(** The registry that [generateRegistry] builds from these answers. *)
Definition registry : Registry :=
  {| entries :=
       <["node" := <["latest" := "12.0.0"]> ∅]>
         (<["jquery" := <["latest" := "3.5.0"]> (<["ts1.8" := "2.0.1"]> ∅)]> ∅) |}.

Definition newContentHash : string := computeHash host (stringify host registry).

(** The index of the package installed from the registry: it has one key
    that the fresh index lacks and that nothing explains, and one that a
    not-needed package explains. *)
Definition installed : Registry :=
  {| entries :=
       <["left-pad" := <["latest" := "1.0.0"]> ∅]>
         (<["moment" := <["latest" := "2.0.0"]> ∅]> (entries registry)) |}.

Definition notNeeded : list NotNeededPackage := [ {| nn_name := "moment" |} ].

(** The published state and the clock. *)
Record Scenario := {
  info : ProcessedNpmInfo;
  now : Z;
  installed_index : Registry;
}.

Definition world (s : Scenario) : Oracle := fun X c h =>
  match c in Call X return Err + X with
  | Log _ => inr tt
  | LogResult =>
      inr (omap (fun e => match e with ELog m _ => Some m | _ => None end) (rev h))
  | DateNow => inr (now s)
  | ConsoleError _ => inr tt
  | Sleep _ => inr tt
  | FetchAndProcessNpmInfo _ _ => inr (info s)
  | NpmClientCreate _ => inr client
  | ReadTypings => inr typings
  | FetchNpmInfo escapedName _ => inr (package_info escapedName)
  | ReadNotNeededPackages _ => inr notNeeded
  | EmptyDir _ => inr tt
  | WriteJson _ _ => inr tt
  | WriteFile _ _ => inr tt
  | ReadJson path =>
      if String.eqb path
           (joinPaths host [validateTypesRegistryPath host; "index.json"])
      then inr (installed_index s) else inr registry
  | AssertDirectoriesEqual _ _ _ => inr tt
  | ExecAndThrowErrors _ _ => inr EmptyString
  | ClientPublish _ _ _ _ => inr tt
  | ClientTag _ _ _ _ => inr tt
  | WriteLog _ _ => inr tt
  end.

Definition v (major minor patch : N) : Semver :=
  {| major := major; minor := minor; patch := patch |}.

Definition days (n : Z) : Z := n * millisecondsPerDay.

(** Published three days ago. *)
Definition recent : Scenario :=
  {| info := {| version := v 0 1 5; highestSemverVersion := v 0 1 5;
                contentHash := "abc"; lastModified := 0 |};
     now := days 3; installed_index := registry |}.

(** Version 1.0.0 was tagged by hand, three days ago and long ago. *)
Definition foreign_recent : Scenario :=
  {| info := {| version := v 1 0 0; highestSemverVersion := v 1 0 0;
                contentHash := "abc"; lastModified := 0 |};
     now := days 3; installed_index := registry |}.

Definition foreign : Scenario :=
  {| info := {| version := v 1 0 0; highestSemverVersion := v 1 0 0;
                contentHash := "abc"; lastModified := 0 |};
     now := days 30; installed_index := registry |}.

(** The registry has changed since 0.1.5. *)
Definition changed : Scenario :=
  {| info := {| version := v 0 1 5; highestSemverVersion := v 0 1 5;
                contentHash := "abc"; lastModified := 0 |};
     now := days 30; installed_index := registry |}.

(** The registry is as it was at 0.1.5. *)
Definition unchanged : Scenario :=
  {| info := {| version := v 0 1 5; highestSemverVersion := v 0 1 5;
                contentHash := newContentHash; lastModified := 0 |};
     now := days 30; installed_index := registry |}.

(** 0.1.6 was uploaded but never tagged "latest". *)
Definition untagged : Scenario :=
  {| info := {| version := v 0 1 5; highestSemverVersion := v 0 1 6;
                contentHash := "abc"; lastModified := 0 |};
     now := days 30; installed_index := registry |}.

(** The record and the outcome of [main] in a scenario; [after n] is the
    record without its first [n] events. *)
Definition main_run (s : Scenario) : list Event * Outcome unit :=
  run (world s) (main host options false fetcher).

Definition after (n : nat) (s : Scenario) : list Event := drop n (main_run s).1.

Definition outcome (s : Scenario) : Outcome unit := (main_run s).2.

(** How a run starts in a scenario, up to the list of typings. *)
Definition prefix (s : Scenario) : list Event :=
  prepared fetcher (info s) (now s) client typings.

Definition manifest : Json := generatePackageJson "0.1.6" newContentHash.

Definition bundle : list Event :=
  regenerated host (stringify host registry) manifest.

(** The subset validation against an installed index with an unexplained
    key, and the calls it makes before it reads the two indexes. *)
Definition subset_run : list Event * Outcome unit :=
  run (world {| info := info untagged; now := now untagged;
                installed_index := installed |})
    (validateIsSubset host notNeeded).


End Sample.

(** ** What a part of the program may call *)

(** Every call the program can make from here on satisfies [P]. *)
Fixpoint only_calls {A} (P : Event -> Prop) (p : Prog A) : Prop :=
  match p with
  | Ret _ | Throw _ => True
  | Do c k => (forall r, P (event c r)) /\ forall x, only_calls P (k x)
  end.

(** The collaborator operations, without their arguments and answers. *)
Inductive Operation :=
| OLog | OLogResult | ODateNow | OConsoleError | OSleep
| OFetchAndProcessNpmInfo | ONpmClientCreate | OReadTypings | OFetchNpmInfo
| OReadNotNeededPackages | OEmptyDir | OWriteJson | OWriteFile | OReadJson
| OAssertDirectoriesEqual | OExecAndThrowErrors | OClientPublish | OClientTag
| OWriteLog.

Scheme Equality for Operation.

Definition operation (e : Event) : Operation :=
  match e with
  | ELog _ _ => OLog
  | ELogResult _ => OLogResult
  | EDateNow _ => ODateNow
  | EConsoleError _ _ => OConsoleError
  | ESleep _ _ => OSleep
  | EFetchAndProcessNpmInfo _ _ _ => OFetchAndProcessNpmInfo
  | ENpmClientCreate _ _ => ONpmClientCreate
  | EReadTypings _ => OReadTypings
  | EFetchNpmInfo _ _ _ => OFetchNpmInfo
  | EReadNotNeededPackages _ _ => OReadNotNeededPackages
  | EEmptyDir _ _ => OEmptyDir
  | EWriteJson _ _ _ => OWriteJson
  | EWriteFile _ _ _ => OWriteFile
  | EReadJson _ _ => OReadJson
  | EAssertDirectoriesEqual _ _ _ _ => OAssertDirectoriesEqual
  | EExecAndThrowErrors _ _ _ => OExecAndThrowErrors
  | EClientPublish _ _ _ _ _ => OClientPublish
  | EClientTag _ _ _ _ _ => OClientTag
  | EWriteLog _ _ _ => OWriteLog
  end.

(** The event is a call of one of the listed operations. *)
Definition among (ops : list Operation) (e : Event) : bool :=
  existsb (Operation_beq (operation e)) ops.

(** The operations of [installForValidate], [validate] and
    [validateIsSubset]. *)
Definition install_operations : list Operation :=
  [OEmptyDir; OWriteJson; OExecAndThrowErrors; OConsoleError].

Definition validate_operations : list Operation :=
  install_operations ++ [OAssertDirectoriesEqual].

Definition subset_operations : list Operation :=
  validate_operations ++ [OReadJson].

(** The event with the dry-run flag of an upload replaced. *)
Definition with_dry (dry : bool) (e : Event) : Event :=
  match e with
  | EClientPublish client dir packageJson _ r =>
      EClientPublish client dir packageJson dry r
  | _ => e
  end.

(** The command line of the installation. *)
Definition install_command (host : Host) : string :=
  "node "
  +:+ joinPaths host [dirname host; ".."; "node_modules"; "npm"; "bin"; "npm-cli.js"]
  +:+ " install types-registry@next " +:+ npmInstallFlags host.

(** The operations of a run up to the two assertions, of [generate], of
    the three-way branch, and of the writing of the log. *)
Definition early_operations : list Operation :=
  [OLog; OFetchAndProcessNpmInfo; ODateNow; ONpmClientCreate; OReadTypings;
   OFetchNpmInfo].

Definition generate_operations : list Operation :=
  [OEmptyDir; OWriteJson; OWriteFile].

Definition branch_operations : list Operation :=
  [OLog; OReadNotNeededPackages; OClientPublish; OSleep; OClientTag]
  ++ subset_operations.

Definition before_log_operations : list Operation :=
  early_operations ++ generate_operations ++ branch_operations.

(** ** The dependencies of a generated package

    [addInferredDependencies] of [lib/package-generator.ts].  [settings.prereleaseTag] and
    [fullPackageName] come from [lib/common], which is not part of the
    sources at hand: they are parameters.  The object [dependencies] is
    updated in place by the source; here the updated object is returned.
    The version numbers are natural numbers, printed in decimal. *)
Module PackageGenerator.

(** The fields of this file's [TypingsData] that the function reads. *)
Record TypingsData := {
  moduleDependencies : list string;
  libraryDependencies : list string;
  libraryMajorVersion : N;
  libraryMinorVersion : N;
}.

Section Settings.

Variable prereleaseTag : option string.
Variable fullPackageName : string -> string.

(** A string or [undefined] used as a condition: the empty string and
    [undefined] count as false. *)
Definition truthy (s : option string) : bool :=
  match s with
  | Some s => negb (String.eqb s EmptyString)
  | None => false
  end.

(** The range [semver] that [addDependency] computes for a known typing. *)
Definition dependency_range (type : TypingsData) (version : N) : string :=
  let patch :=
    if truthy prereleaseTag
    then pretty version +:+ "-" +:+ default EmptyString prereleaseTag
    else "*" in
  pretty (libraryMajorVersion type) +:+ "."
  +:+ pretty (libraryMinorVersion type) +:+ "." +:+ patch.

(** The inner function [addDependency]. *)
Definition addDependency (availableTypes : gmap string TypingsData) (version : N)
    (dependencies : gmap string string) (d : string) : gmap string string :=
  if bool_decide (is_Some (dependencies !! d))
     || negb (bool_decide (is_Some (availableTypes !! d)))
  then dependencies
  else
    match availableTypes !! d with
    | Some type => <[fullPackageName d := dependency_range type version]> dependencies
    | None => dependencies
    end.

Definition addInferredDependencies (dependencies : gmap string string)
    (typing : TypingsData) (availableTypes : gmap string TypingsData)
    (version : N) : gmap string string :=
  foldl (addDependency availableTypes version)
    (foldl (addDependency availableTypes version) dependencies
       (moduleDependencies typing))
    (libraryDependencies typing).

End Settings.

(** A sample: jquery and node are known typings, http is not. *)
Definition sample_fullPackageName (name : string) : string := "@types/" +:+ name.

Definition sample_available : gmap string TypingsData :=
  <["jquery" := {| moduleDependencies := []; libraryDependencies := [];
                   libraryMajorVersion := 3; libraryMinorVersion := 5 |}]>
    (<["node" := {| moduleDependencies := []; libraryDependencies := [];
                    libraryMajorVersion := 12; libraryMinorVersion := 0 |}]> ∅).

Definition sample_typing : TypingsData :=
  {| moduleDependencies := ["http"; "jquery"]; libraryDependencies := ["node"];
     libraryMajorVersion := 1; libraryMinorVersion := 2 |}.

Definition sample_declared : gmap string string := <["left-pad" := "^1.0.0"]> ∅.

End PackageGenerator.

(** ** Runs *)

Lemma event_inj {X} (c : Call X) (r r' : Err + X) :
  event c r = event c r' -> r = r'.
Proof. destruct c; simpl; congruence. Qed.

Lemma exec_Do {A X} (c : Call X) (k : X -> Prog A) t o :
  exec (Do c k) t o <->
    (infallible c = false /\ exists e, t = [event c (inl e)] /\ o = Thrown e)
    \/ (exists x t', t = event c (inr x) :: t' /\ exec (k x) t' o).
Proof. reflexivity. Qed.

Lemma exec_Ret {A} (a : A) t o : exec (Ret a) t o <-> t = [] /\ o = Returned a.
Proof. reflexivity. Qed.

Lemma exec_Throw {A} (e : Err) t (o : Outcome A) :
  exec (Throw e) t o <-> t = [] /\ o = Thrown e.
Proof. reflexivity. Qed.

(** A run of [p] followed by [f] either stops where [p] throws, or is a
    returning run of [p] followed by a run of [f]. *)
Lemma exec_bind {A B} (p : Prog A) (f : A -> Prog B) t o :
  exec (bind p f) t o <->
    (exists e, exec p t (Thrown e) /\ o = Thrown e)
    \/ (exists a t1 t2, t = t1 ++ t2 /\ exec p t1 (Returned a) /\ exec (f a) t2 o).
Proof.
  revert t. induction p as [a | e | X c k IH]; intros t; simpl.
  - split.
    + intros H. right. exists a, [], t. auto.
    + intros [(e & [_ [=]] & _) | (a' & t1 & t2 & -> & [-> [= <-]] & Hf)]; done.
  - split.
    + intros [-> ->]. left. eauto.
    + intros [(e' & [-> [= <-]] & ->) | (a' & t1 & t2 & _ & [_ [=]] & _)]; done.
  - split.
    + intros [(Hc & e & -> & ->) | (x & t' & -> & H)].
      * left. exists e. split; [left|]; eauto.
      * apply IH in H as [(e & H0 & ->) | (a & t1 & t2 & -> & H1 & H2)].
        -- left. exists e. split; [right|]; eauto.
        -- right. exists a, (event c (inr x) :: t1), t2.
           split; [done|]. split; [right|]; eauto.
    + intros [(e & [(Hc & e' & -> & [= <-]) | (x & t' & -> & H)] & ->)
             | (a & t1 & t2 & -> & [(_ & _ & _ & [=]) | (x & t' & -> & H1)] & H2)].
      * left. eauto.
      * right. exists x, t'. split; [done|]. apply IH. left. eauto.
      * right. exists x, (t' ++ t2). split; [done|]. apply IH. right.
        exists a, t', t2. eauto.
Qed.

(** The record of a returning run determines where it ends and what it
    returns: no other run of the same program starts with that record. *)
Lemma exec_returned_prefix {A} (p : Prog A) t1 a t1' o r r' :
  exec p t1 (Returned a) -> exec p t1' o -> t1 ++ r = t1' ++ r' ->
  t1' = t1 /\ o = Returned a /\ r' = r.
Proof.
  revert t1 t1'. induction p as [a0 | e | X c k IH]; intros t1 t1'; simpl.
  - intros [-> [= <-]] [-> ->]. simpl. auto.
  - intros [_ [=]].
  - intros [(_ & _ & _ & [=]) | (x & u & -> & H1)]
           [(_ & e & -> & ->) | (x' & u' & -> & H2)] Heq; simpl in Heq.
    + injection Heq as Heq _. apply event_inj in Heq. done.
    + injection Heq as Heq Hu. apply event_inj in Heq. injection Heq as <-.
      destruct (IH _ _ _ H1 H2 Hu) as (-> & -> & ->). done.
Qed.

Lemma exec_bind_returned {A B} (p : Prog A) (f : A -> Prog B) t1 a t2 o :
  exec p t1 (Returned a) -> exec (bind p f) (t1 ++ t2) o -> exec (f a) t2 o.
Proof.
  intros H1 [(e & H & ->) | (a' & u1 & u2 & Heq & Hu1 & Hu2)]%exec_bind.
  - destruct (exec_returned_prefix p t1 a (t1 ++ t2) (Thrown e) t2 [] H1 H)
      as (_ & [=] & _).
    by rewrite app_nil_r.
  - destruct (exec_returned_prefix p t1 a u1 (Returned a') t2 u2 H1 Hu1 Heq)
      as (_ & [= <-] & ->).
    done.
Qed.

(** Every program has a run against every well-behaved oracle, and [run]
    computes it. *)
Lemma run_from_exec {A} (w : Oracle) (p : Prog A) h :
  well_behaved w ->
  exists t, fst (run_from w h p) = rev t ++ h /\ exec p t (snd (run_from w h p)).
Proof.
  intros Hw. revert h. induction p as [a | e | X c k IH]; intros h; simpl.
  - by exists [].
  - by exists [].
  - destruct (w X c h) as [e | x] eqn:Hc.
    + exists [event c (inl e)]. split; [done|]. left. split; [by eapply Hw|eauto].
    + destruct (IH x (event c (inr x) :: h)) as (t & Ht & Hex).
      exists (event c (inr x) :: t). split.
      * rewrite Ht. simpl. by rewrite <- app_assoc.
      * right. eauto.
Qed.

Lemma run_exec {A} (w : Oracle) (p : Prog A) t o :
  well_behaved w -> run w p = (t, o) -> exec p t o.
Proof.
  intros Hw. unfold run.
  destruct (run_from_exec w p [] Hw) as (t' & Ht & Hex).
  destruct (run_from w [] p) as [h o']. simpl in *. intros [= <- <-].
  by rewrite Ht, app_nil_r, rev_involutive.
Qed.

(** ** The tag filter *)

(** The loop of [filterTags] keeps exactly the entries that pass its test. *)
Lemma filterTags_filter (tags : Tags) :
  filterTags tags =
  filter (fun kv => kv.1 = "latest" \/ Some kv.2 <> tags !! "latest") tags.
Proof.
  unfold filterTags. generalize (tags !! "latest"). intros latestVersion.
  apply (map_fold_weak_ind (fun out m =>
    out = filter (fun kv => kv.1 = "latest" \/ Some kv.2 <> latestVersion) m)).
  - by rewrite map_filter_empty.
  - intros tag v m out Hfresh ->.
    destruct (bool_decide (tag = "latest")) eqn:Htag; simpl.
    + apply bool_decide_eq_true in Htag.
      rewrite map_filter_insert_True; [done | by left].
    + apply bool_decide_eq_false in Htag.
      destruct (bool_decide (Some v = latestVersion)) eqn:Hv; simpl.
      * apply bool_decide_eq_true in Hv.
        rewrite map_filter_insert_False, delete_id; [done | done |].
        simpl. intros [? | ?]; done.
      * apply bool_decide_eq_false in Hv.
        rewrite map_filter_insert_True; [done | by right].
Qed.





(** ** Stepping through a program *)

Tactic Notation "exec_norm" ident(H) :=
  unfold mbind, Prog_bind, mret, Prog_ret, call in H; cbn [bind] in H.

(** One call: either it throws and the run ends, or it answers and the
    run goes on. *)
Tactic Notation "exec_step" ident(H) :=
  try unfold call in H;
  apply (proj1 (exec_Do _ _ _ _)) in H; unfold event, infallible in H;
  let H' := fresh "Hrun" in
  let Ht := fresh "Ht" in
  let Hc := fresh "Hc" in
  let Ho := fresh "Ho" in
  destruct H as [(Hc & ? & Ht & Ho) | (? & ? & Ht & H')];
  [| rename H' into H]; simplify_eq;
  repeat match goal with x : unit |- _ => destruct x end.

Tactic Notation "exec_ret" ident(H) :=
  apply (proj1 (exec_Ret _ _ _)) in H; destruct H as [? ?]; simplify_eq.

(** A condition the run depends on. *)
Tactic Notation "exec_if" ident(H) :=
  match type of H with
  | exec (if ?b then _ else _) _ _ =>
      let E := fresh "Hif" in revert H; destruct b eqn:E; intros H
  end.

Ltac all_events :=
  repeat first [apply Forall_nil_2 | apply Forall_cons_2; [done|]].

(** ** The parts of the program *)

Lemma more_than_a_week_spec now time :
  more_than_a_week now time = true <-> 7 * millisecondsPerDay < now - time.
Proof.
  unfold more_than_a_week. rewrite negb_true_iff, <- not_true_iff_false, Qle_bool_iff.
  unfold Qle, Qdiv, Qmult, Qinv, inject_Z, millisecondsPerDay. simpl. lia.
Qed.

Lemma generateRegistry_entries_fetches typings fetcher entries t o :
  exec (generateRegistry_entries typings fetcher entries) t o ->
  Forall (fun e => is_package_fetch e = true) t.
Proof.
  revert entries t. induction typings as [| typing typings IH]; intros entries t H.
  - exec_ret H. constructor.
  - cbn [generateRegistry_entries] in H. exec_norm H. exec_step H.
    + by repeat constructor.
    + constructor; [done|]. by eapply IH.
Qed.

Lemma generateRegistry_fetches typings fetcher options t o :
  exec (generateRegistry typings fetcher options) t o ->
  Forall (fun e => is_package_fetch e = true) t.
Proof.
  unfold generateRegistry, mbind, Prog_bind.
  intros [(e & H & _) | (a & t1 & t2 & -> & H1 & H2)]%exec_bind.
  - by eapply generateRegistry_entries_fetches.
  - exec_ret H2. rewrite app_nil_r. by eapply generateRegistry_entries_fetches.
Qed.

Lemma generate_returned host registry packageJson t :
  exec (generate host registry packageJson) t (Returned tt) ->
  t = regenerated host registry packageJson.
Proof.
  intros H. unfold generate in H. exec_norm H.
  do 4 exec_step H. by exec_ret H.
Qed.

Lemma generate_writes host registry packageJson t o :
  exec (generate host registry packageJson) t o ->
  Forall (fun e => is_write e = true) t.
Proof.
  intros H. unfold generate in H. exec_norm H.
  do 4 (exec_step H; [all_events|]). exec_ret H. all_events.
Qed.


Lemma installForValidate_quiet host t o :
  exec (installForValidate host) t o -> Forall quiet t.
Proof.
  intros Hx. unfold installForValidate in Hx. exec_norm Hx.
  do 3 (exec_step Hx; [all_events|]).
  exec_if Hx.
  - exec_ret Hx. all_events.
  - exec_step Hx. exec_ret Hx. all_events.
Qed.

Lemma validate_quiet host t o :
  exec (validate host) t o -> Forall quiet t.
Proof.
  unfold validate, mbind, Prog_bind.
  intros [(e & Hx & _) | ([] & t1 & t2 & -> & H1 & H2)]%exec_bind.
  - by eapply installForValidate_quiet.
  - apply Forall_app. split; [by eapply installForValidate_quiet|].
    exec_step H2; [all_events|]. exec_ret H2. all_events.
Qed.

(** A returning run of [validate] is an installation followed by the
    comparison that ignores exactly the manifest. *)
Lemma validate_returned host t :
  exec (validate host) t (Returned tt) ->
  exists ti ignore,
    t = ti ++ [compared host ignore (inr tt)]
    /\ exec (installForValidate host) ti (Returned tt)
    /\ forall f, ignore f = true <-> f = "package.json".
Proof.
  unfold validate, mbind, Prog_bind.
  intros [(e & _ & [=]) | ([] & t1 & t2 & -> & H1 & H2)]%exec_bind.
  exec_step H2. exec_ret H2.
  eexists _, _. split; [done|]. split; [done|].
  intros f. apply String.eqb_eq.
Qed.

Lemma check_keys_inv keys expected notNeeded t o :
  exec (check_keys keys expected notNeeded) t o ->
  t = []
  /\ ((o = Returned tt
       /\ forall key, key ∈ keys ->
            is_Some (entries expected !! key)
            \/ exists p, p ∈ notNeeded /\ nn_name p = key)
      \/ (exists key,
            key ∈ keys
            /\ entries expected !! key = None
            /\ (forall p, p ∈ notNeeded -> nn_name p <> key)
            /\ o = Thrown (Error ("Actual types-registry has unexpected key " +:+ key)))).
Proof.
  induction keys as [| key keys IH]; intros Hx.
  - exec_ret Hx. split; [done|]. left. split; [done|]. by intros key ?%elem_of_nil.
  - cbn [check_keys] in Hx.
    destruct (bool_decide (is_Some (entries expected !! key))) eqn:Hin;
      [apply bool_decide_eq_true in Hin | apply bool_decide_eq_false in Hin];
      simpl in Hx.
    + destruct (IH Hx) as (-> & [(-> & Hall) | (k & Hk & Hnone & Hnn & ->)]).
      * split; [done|]. left. split; [done|].
        intros k [-> | Hk]%elem_of_cons; auto.
      * split; [done|]. right. exists k. rewrite elem_of_cons. auto.
    + destruct (existsb _ notNeeded) eqn:Hnn; simpl in Hx.
      * apply existsb_exists in Hnn as (p & Hp & Heq%String.eqb_eq).
        apply list_elem_of_In in Hp.
        destruct (IH Hx) as (-> & [(-> & Hall) | (k & Hk & Hnone & Hnn & ->)]).
        -- split; [done|]. left. split; [done|].
           intros k [-> | Hk]%elem_of_cons; eauto.
        -- split; [done|]. right. exists k. rewrite elem_of_cons. auto.
      * destruct Hx as [-> ->]. split; [done|]. right. exists key.
        split; [by left|]. split.
        -- by apply eq_None_not_Some.
        -- split; [|done]. intros p Hp Heq.
           apply not_true_iff_false in Hnn. apply Hnn.
           apply existsb_exists. exists p. split; [by apply list_elem_of_In|].
           by apply String.eqb_eq.
Qed.

Lemma installForValidate_writes_and_installs host t o :
  exec (installForValidate host) t o ->
  Forall (fun e => forall path r, e <> EReadJson path r) t.
Proof.
  intros Hx. unfold installForValidate in Hx. exec_norm Hx.
  do 3 (exec_step Hx; [all_events|]).
  exec_if Hx.
  - exec_ret Hx. all_events.
  - exec_step Hx. exec_ret Hx. all_events.
Qed.

Lemma validateIsSubset_quiet host notNeeded t o :
  exec (validateIsSubset host notNeeded) t o -> Forall quiet t.
Proof.
  unfold validateIsSubset, mbind, Prog_bind.
  intros [(e & Hx & _) | ([] & t1 & t2 & -> & H1 & H2)]%exec_bind.
  - by eapply installForValidate_quiet.
  - apply Forall_app. split; [by eapply installForValidate_quiet|].
    do 3 (exec_step H2; [all_events|]).
    apply check_keys_inv in H2 as [-> _]. all_events.
Qed.

Lemma writeLogs_quiet t o : exec writeLogs t o -> Forall quiet t.
Proof.
  intros Hx. unfold writeLogs in Hx. exec_norm Hx.
  exec_step Hx. exec_step Hx; [all_events|]. exec_ret Hx. all_events.
Qed.

Lemma package_fetch_only e :
  is_package_fetch e = true ->
  is_publish e = false /\ is_tag e = false
  /\ is_validation e = false /\ is_write e = false.
Proof. by destruct e. Qed.

(** ** The whole run *)

(** Past the staleness guard and the fetches, the run continues with the
    two assertions, the regeneration of the bundle, the branch and the
    log. *)
Lemma main_assertions host options dry fetcher info now client typings tr reg rest o :
  exec (main host options dry fetcher)
    (prepared fetcher info now client typings ++ tr ++ rest) o ->
  exec (generateRegistry typings fetcher options) tr (Returned reg) ->
  let registry := stringify host reg in
  let newContentHash := computeHash host registry in
  let newVersion := "0.1." +:+ pretty (patch (version info) + 1)%N in
  let packageJson := generatePackageJson newVersion newContentHash in
  more_than_a_week now (lastModified info) = true
  /\ exec
      (bind (assert_equal (major (version info)) 0) (fun _ =>
       bind (assert_equal (minor (version info)) 1) (fun _ =>
       bind (generate host registry packageJson) (fun _ =>
       bind (branch host options dry client info newContentHash packageJson newVersion)
         (fun _ => writeLogs)))))
      rest o.
Proof.
  intros Hx Hreg. unfold main, isAWeekAfter, prepared, started in Hx.
  exec_norm Hx. simpl app in Hx.
  do 3 exec_step Hx. exec_if Hx.
  { exec_step Hx. }
  apply negb_false_iff in Hif. split; [done|].
  do 2 exec_step Hx.
  by apply (exec_bind_returned _ _ _ _ _ _ Hreg) in Hx.
Qed.

Lemma main_branch host options dry fetcher info now client typings tr reg
    registry packageJson tg rest o :
  exec (main host options dry fetcher)
    (prepared fetcher info now client typings ++ tr ++ tg ++ rest) o ->
  exec (generateRegistry typings fetcher options) tr (Returned reg) ->
  exec (generate host registry packageJson) tg (Returned tt) ->
  let newContentHash := computeHash host (stringify host reg) in
  let newVersion := "0.1." +:+ pretty (patch (version info) + 1)%N in
  major (version info) = 0%N /\ minor (version info) = 1%N
  /\ registry = stringify host reg
  /\ packageJson = generatePackageJson newVersion newContentHash
  /\ exec
      (bind (branch host options dry client info newContentHash packageJson newVersion)
         (fun _ => writeLogs))
      rest o.
Proof.
  intros Hx Hreg Hgen. apply generate_returned in Hgen as ->.
  apply main_assertions with (reg := reg) in Hx as [_ Hx]; [|done].
  unfold assert_equal, regenerated in Hx. simpl app in Hx.
  destruct (major (version info) =? 0)%N eqn:Hmajor; [|by destruct Hx].
  destruct (minor (version info) =? 1)%N eqn:Hminor; [|by destruct Hx].
  apply N.eqb_eq in Hmajor, Hminor.
  cbn [bind] in Hx. unfold generate in Hx. exec_norm Hx.
  do 4 exec_step Hx. done.
Qed.

(** ** The claims about the run *)

(** C6: when the published state was last modified less than a week
    before the clock's reading, the run logs that it does nothing and
    returns; the registry is not asked about any package, nothing is
    generated, and none of the three branches is entered. *)
Theorem C6_recent_publish_is_a_noop host options dry fetcher info now rest o :
  exec (main host options dry fetcher) (started fetcher info now ++ rest) o ->
  now - lastModified info < 7 * millisecondsPerDay ->
  rest = [ELog "Was modified less than a week ago, so do nothing." (inr tt)]
  /\ o = Returned tt.
Proof.
  intros Hx Hrecent.
  assert (more_than_a_week now (lastModified info) = false) as Hguard.
  { apply not_true_iff_false. rewrite more_than_a_week_spec. lia. }
  unfold main, isAWeekAfter, started in Hx. exec_norm Hx. simpl app in Hx.
  do 3 exec_step Hx. rewrite Hguard in Hx. cbn [negb] in Hx.
  exec_step Hx. by exec_ret Hx.
Qed.

Lemma assertions_fail {A} (major minor : N) (k : Prog A) t o :
  major <> 0%N \/ minor <> 1%N ->
  exec (bind (assert_equal major 0) (fun _ =>
        bind (assert_equal minor 1) (fun _ => k))) t o ->
  t = [] /\ o = Thrown (if (major =? 0)%N then AssertionError minor 1
                        else AssertionError major 0).
Proof.
  intros Hversion Hx. unfold assert_equal in Hx.
  destruct (major =? 0)%N eqn:Hmajor; [|by destruct Hx].
  destruct (minor =? 1)%N eqn:Hminor; [|by destruct Hx].
  apply N.eqb_eq in Hmajor, Hminor. by destruct Hversion.
Qed.

(** C4, amended: when the staleness guard lets the run go on and the old
    version's major is not 0 or its minor is not 1, the run ends with a
    thrown error, having made no upload, no tag, no validation call and no
    write; and if the registry could be built, the error is the failed
    assertion. *)
Theorem C4_version_precondition_is_fatal host options dry fetcher info now rest o :
  exec (main host options dry fetcher) (started fetcher info now ++ rest) o ->
  more_than_a_week now (lastModified info) = true ->
  major (version info) <> 0%N \/ minor (version info) <> 1%N ->
  (exists e, o = Thrown e)
  /\ Forall (fun ev => is_publish ev = false /\ is_tag ev = false
                       /\ is_validation ev = false /\ is_write ev = false)
       (started fetcher info now ++ rest)
  /\ (forall client typings tr reg,
        rest = [ENpmClientCreate "next" (inr client); EReadTypings (inr typings)] ++ tr ->
        exec (generateRegistry typings fetcher options) tr (Returned reg) ->
        o = Thrown (if (major (version info) =? 0)%N
                    then AssertionError (minor (version info)) 1
                    else AssertionError (major (version info)) 0)).
Proof.
  intros Hx Hguard Hversion.
  unfold main, isAWeekAfter, started in Hx. exec_norm Hx. simpl app in Hx.
  do 3 exec_step Hx. rewrite Hguard in Hx. cbn [negb] in Hx.
  exec_step Hx.
  { split; [eauto|]. split; [unfold started; simpl; all_events|].
    intros ? ? ? ? [=]. }
  exec_step Hx.
  { split; [eauto|]. split; [unfold started; simpl; all_events|].
    intros ? ? ? ? [=]. }
  apply exec_bind in Hx as [(e & Hreg & ->) | (reg & t1 & t2 & -> & Hreg & Hx)].
  - split; [eauto|]. split.
    + unfold started; simpl. all_events.
      eapply Forall_impl; [by eapply generateRegistry_fetches|].
      intros ev. apply package_fetch_only.
    + intros ? ? ? ? [= <- <- <-] Hreg'.
      by destruct (exec_returned_prefix _ _ _ _ _ [] [] Hreg' Hreg eq_refl)
        as (_ & ? & _).
  - apply assertions_fail in Hx as [-> ->]; [|done].
    split; [eauto|]. split; [|done].
    unfold started; simpl. all_events. rewrite app_nil_r.
    eapply Forall_impl; [by eapply generateRegistry_fetches|].
    intros ev. apply package_fetch_only.
Qed.

Lemma newVersion_next_patch (v : Semver) :
  major v = 0%N -> minor v = 1%N ->
  "0.1." +:+ pretty (patch v + 1)%N = versionString (next_patch v).
Proof. intros Hmajor Hminor. unfold versionString, next_patch. simpl. by rewrite Hmajor, Hminor. Qed.

(** Up to the branch no upload and no tag is made. *)
Lemma reaching_quiet host fetcher info now client typings options tr o1
    registry packageJson tg o2 :
  exec (generateRegistry typings fetcher options) tr o1 ->
  exec (generate host registry packageJson) tg o2 ->
  Forall quiet (prepared fetcher info now client typings ++ tr ++ tg).
Proof.
  intros Hreg Hgen. unfold prepared, started. simpl. all_events.
  apply Forall_app. split.
  - eapply Forall_impl; [by eapply generateRegistry_fetches|].
    intros ev Hev. by destruct ev.
  - eapply Forall_impl; [by eapply generate_writes|].
    intros ev Hev. by destruct ev.
Qed.

(** C10: on a run that passes the staleness guard and the two assertions
    on the old version, the registry being built, what follows is the
    regeneration of the bundle: either one of its writes throws and the
    run ends there, or the output directory is emptied and package.json
    (with the old version's patch plus one and the new content hash),
    index.json and README.md are written, and only then the three-way
    branch is run, whichever way it goes. *)
Theorem C10_bundle_regenerated_before_branch
    host options dry fetcher info now client typings tr reg rest o :
  exec (main host options dry fetcher)
    (prepared fetcher info now client typings ++ tr ++ rest) o ->
  exec (generateRegistry typings fetcher options) tr (Returned reg) ->
  more_than_a_week now (lastModified info) = true ->
  major (version info) = 0%N -> minor (version info) = 1%N ->
  let registry := stringify host reg in
  let newContentHash := computeHash host registry in
  let newVersion := versionString (next_patch (version info)) in
  let packageJson := generatePackageJson newVersion newContentHash in
  get "version" packageJson = Some (JString newVersion)
  /\ get "typesPublisherContentHash" packageJson = Some (JString newContentHash)
  /\ ((exists e, exec (generate host registry packageJson) rest (Thrown e)
                 /\ o = Thrown e)
      \/ (exists rest',
            rest = regenerated host registry packageJson ++ rest'
            /\ exec
                 (bind (branch host options dry client info newContentHash
                          packageJson newVersion) (fun _ => writeLogs))
                 rest' o)).
Proof.
  intros Hx Hreg _ Hmajor Hminor registry newContentHash newVersion packageJson.
  split; [done|]. split; [done|].
  apply main_assertions with (reg := reg) in Hx as [_ Hx]; [|done].
  rewrite (newVersion_next_patch _ Hmajor Hminor) in Hx.
  unfold assert_equal in Hx. rewrite Hmajor, Hminor in Hx. cbn [N.eqb Pos.eqb bind] in Hx.
  apply exec_bind in Hx as [(e & Hgen & ->) | ([] & t1 & t2 & -> & Hgen & Hx)].
  - left. by exists e.
  - right. apply generate_returned in Hgen as ->. by exists t2.
Qed.

(** C3: on a run that reaches the branch with an old content hash that
    differs from the hash of the registry just built, the manifest that
    was written is the generated one: its version is the old version with
    the patch incremented by one (major and minor as they were), and its
    typesPublisherContentHash is the new hash.  When the old version is
    also the highest one, that manifest and that version are what
    [publish] is run with. *)
Theorem C3_new_version_and_manifest
    host options dry fetcher info now client typings tr reg
    registry packageJson tg rest o :
  exec (main host options dry fetcher)
    (prepared fetcher info now client typings ++ tr ++ tg ++ rest) o ->
  exec (generateRegistry typings fetcher options) tr (Returned reg) ->
  exec (generate host registry packageJson) tg (Returned tt) ->
  contentHash info <> computeHash host (stringify host reg) ->
  let newContentHash := computeHash host (stringify host reg) in
  let newVersion := versionString (next_patch (version info)) in
  major (next_patch (version info)) = major (version info)
  /\ minor (next_patch (version info)) = minor (version info)
  /\ patch (next_patch (version info)) = (patch (version info) + 1)%N
  /\ packageJson = generatePackageJson newVersion newContentHash
  /\ get "version" packageJson = Some (JString newVersion)
  /\ get "typesPublisherContentHash" packageJson = Some (JString newContentHash)
  /\ (equals (highestSemverVersion info) (version info) = true ->
      exists tp op rest',
        rest = ELog "New packages have been added, so publishing a new registry."
                 (inr tt) :: tp ++ rest'
        /\ exec (publish host client packageJson newVersion dry) tp op).
Proof.
  intros Hx Hreg Hgen Hhash newContentHash newVersion.
  destruct (main_branch _ _ _ _ _ _ _ _ _ _ _ _ _ _ _ Hx Hreg Hgen)
    as (Hmajor & Hminor & -> & -> & Hbranch).
  rewrite (newVersion_next_patch _ Hmajor Hminor) in *.
  do 6 (split; [done|]). intros Hequals.
  unfold branch in Hbranch. rewrite Hequals in Hbranch.
  apply String.eqb_neq in Hhash. rewrite Hhash in Hbranch.
  cbn [negb] in Hbranch. exec_norm Hbranch. exec_step Hbranch.
  apply exec_bind in Hbranch as [(e & Hp & ->) | ([] & t1 & t2 & -> & Hp & _)].
  - eexists _, _, []. by rewrite app_nil_r.
  - eauto.
Qed.

(** C1: in the publish branch (the old version is the highest one and the
    old content hash differs from the new one) the run logs the decision
    and then, in this order: uploads the bundle through the client that
    was created with the default tag "next"; sleeps 20 seconds; validates,
    that is installs the package and compares the generated bundle with
    the installed copy, ignoring package.json and nothing else; and tags
    the new version "latest".  If the upload throws the run ends there; if
    the validation throws the run ends there, with no tag made; the tag
    call comes only after a comparison that succeeded. *)
Theorem C1_publish_validate_then_tag
    host options dry fetcher info now client typings tr reg
    registry packageJson tg rest o :
  exec (main host options dry fetcher)
    (prepared fetcher info now client typings ++ tr ++ tg ++ rest) o ->
  exec (generateRegistry typings fetcher options) tr (Returned reg) ->
  exec (generate host registry packageJson) tg (Returned tt) ->
  equals (highestSemverVersion info) (version info) = true ->
  contentHash info <> computeHash host (stringify host reg) ->
  let newVersion := versionString (next_patch (version info)) in
  exists rest1,
    rest = ELog "New packages have been added, so publishing a new registry."
             (inr tt) :: rest1
    /\ ((exists e,
           rest1 = [uploaded host client packageJson dry (inl e)]
           /\ o = Thrown e)
        \/ (exists tv e,
              rest1 = uploaded host client packageJson dry (inr tt)
                      :: ESleep 20 (inr tt) :: tv
              /\ exec (validate host) tv (Thrown e)
              /\ o = Thrown e
              /\ Forall (fun ev => is_tag ev = false) rest1)
        \/ (exists ti ignore r rest2,
              rest1 = uploaded host client packageJson dry (inr tt)
                      :: ESleep 20 (inr tt)
                      :: ti ++ compared host ignore (inr tt)
                      :: EClientTag client packageName newVersion "latest" r
                      :: rest2
              /\ exec (installForValidate host) ti (Returned tt)
              /\ (forall f, ignore f = true <-> f = "package.json")
              /\ Forall quiet (ti ++ rest2))).
Proof.
  intros Hx Hreg Hgen Hequals Hhash newVersion.
  destruct (main_branch _ _ _ _ _ _ _ _ _ _ _ _ _ _ _ Hx Hreg Hgen)
    as (Hmajor & Hminor & -> & -> & Hbranch).
  rewrite (newVersion_next_patch _ Hmajor Hminor) in *. fold newVersion in Hbranch |- *.
  unfold branch in Hbranch. rewrite Hequals in Hbranch.
  apply String.eqb_neq in Hhash. rewrite Hhash in Hbranch.
  cbn [negb] in Hbranch. exec_norm Hbranch. exec_step Hbranch.
  eexists. split; [done|].
  unfold publish in Hbranch. exec_norm Hbranch.
  exec_step Hbranch; [left; eauto|]. exec_step Hbranch.
  apply exec_bind in Hbranch
    as [(e & Hv & ->) | ([] & t1 & t2 & -> & Hv & Hlog)];
    apply exec_bind in Hv
      as [(e' & Hv & Ho) | ([] & tv & tt' & -> & Hv & Htag)]; simplify_eq.
  - right. left. exists x0, e'. do 3 (split; [done|]).
    all_events. eapply Forall_impl; [by eapply validate_quiet|]. by intros ev [_ ?].
  - right. right. exec_step Htag; [|by exec_ret Htag].
    apply validate_returned in Hv as (ti & ignore & -> & Hi & Hignore).
    eexists ti, ignore, (inl _), []. rewrite <- app_assoc. split; [done|].
    do 2 (split; [done|]). rewrite app_nil_r. by eapply installForValidate_quiet.
  - right. right. exec_step Htag. exec_ret Htag.
    apply validate_returned in Hv as (ti & ignore & -> & Hi & Hignore).
    exists ti, ignore, (inr tt), t2. rewrite <- !app_assoc. split; [done|].
    do 2 (split; [done|]). apply Forall_app.
    split; [by eapply installForValidate_quiet | by eapply writeLogs_quiet].
Qed.

(** C9: when the run reaches the branch with the old version being the
    highest one and the old content hash equal to the new one, it makes no
    upload and no tag from its start to its end; it logs the decision and
    runs [validate]: the installation and, if that succeeds, the
    comparison of the generated bundle with the installed copy that
    ignores package.json only. *)
Theorem C9_unchanged_registry_only_validates
    host options dry fetcher info now client typings tr reg
    registry packageJson tg rest o :
  exec (main host options dry fetcher)
    (prepared fetcher info now client typings ++ tr ++ tg ++ rest) o ->
  exec (generateRegistry typings fetcher options) tr (Returned reg) ->
  exec (generate host registry packageJson) tg (Returned tt) ->
  equals (highestSemverVersion info) (version info) = true ->
  contentHash info = computeHash host (stringify host reg) ->
  Forall quiet (prepared fetcher info now client typings ++ tr ++ tg ++ rest)
  /\ exists tv ov rest',
      rest = ELog "No new packages published, so no need to publish new registry."
               (inr tt) :: tv ++ rest'
      /\ exec (validate host) tv ov
      /\ (forall e, ov = Thrown e -> rest' = [] /\ o = Thrown e)
      /\ (ov = Returned tt ->
          exists ti ignore,
            tv = ti ++ [compared host ignore (inr tt)]
            /\ exec (installForValidate host) ti (Returned tt)
            /\ forall f, ignore f = true <-> f = "package.json").
Proof.
  intros Hx Hreg Hgen Hequals Hhash.
  destruct (main_branch _ _ _ _ _ _ _ _ _ _ _ _ _ _ _ Hx Hreg Hgen)
    as (Hmajor & Hminor & Hregistry & Hjson & Hbranch).
  unfold branch in Hbranch. rewrite Hequals in Hbranch.
  apply String.eqb_eq in Hhash. rewrite Hhash in Hbranch.
  cbn [negb] in Hbranch. exec_norm Hbranch. exec_step Hbranch.
  assert (Forall quiet (prepared fetcher info now client typings ++ tr ++ tg))
    as Hquiet by (rewrite app_assoc; by eapply reaching_quiet).
  apply exec_bind in Hbranch
    as [(e & Hv & ->) | ([] & tv & t2 & -> & Hv & Hlog)].
  - split.
    + rewrite !app_assoc, <- (app_assoc _ tr tg). apply Forall_app. split; [done|].
      all_events. by eapply validate_quiet.
    + exists x0, (Thrown e), []. rewrite app_nil_r. split; [done|]. split; [done|].
      split; [by intros ? [= <-] | done].
  - split.
    + rewrite !app_assoc, <- (app_assoc _ tr tg). apply Forall_app. split; [done|].
      all_events. apply Forall_app.
      split; [by eapply validate_quiet | by eapply writeLogs_quiet].
    + exists tv, (Returned tt), t2. split; [done|]. split; [done|].
      split; [done|]. intros _. by apply validate_returned.
Qed.

Lemma quiet_no_publish (l : list Event) :
  Forall quiet l -> Forall (fun ev => is_publish ev = false) l.
Proof. intros H. eapply Forall_impl; [exact H|]. by intros ev [? _]. Qed.

(** C2: when the run reaches the branch and the highest version ever
    tagged is not the old version, no upload is made from the start of
    the run to its end.  The run logs the decision, reads the not-needed
    packages and runs the subset validation; if that throws, the run ends
    there and no tag is made; the only tag call puts "latest" on the
    highest version, and it comes after a subset validation that
    returned. *)
Theorem C2_promote_never_uploads
    host options dry fetcher info now client typings tr reg
    registry packageJson tg rest o :
  exec (main host options dry fetcher)
    (prepared fetcher info now client typings ++ tr ++ tg ++ rest) o ->
  exec (generateRegistry typings fetcher options) tr (Returned reg) ->
  exec (generate host registry packageJson) tg (Returned tt) ->
  equals (highestSemverVersion info) (version info) = false ->
  Forall (fun ev => is_publish ev = false)
    (prepared fetcher info now client typings ++ tr ++ tg ++ rest)
  /\ exists rest1,
      rest = ELog "Old version of types-registry was never tagged latest, so updating"
               (inr tt) :: rest1
      /\ ((exists e,
             rest1 = [EReadNotNeededPackages options (inl e)] /\ o = Thrown e)
          \/ (exists notNeeded tv e,
                rest1 = EReadNotNeededPackages options (inr notNeeded) :: tv
                /\ exec (validateIsSubset host notNeeded) tv (Thrown e)
                /\ o = Thrown e
                /\ Forall (fun ev => is_tag ev = false) rest1)
          \/ (exists notNeeded tv r rest2,
                rest1 = EReadNotNeededPackages options (inr notNeeded)
                        :: tv
                        ++ EClientTag client packageName
                             (versionString (highestSemverVersion info)) "latest" r
                        :: rest2
                /\ exec (validateIsSubset host notNeeded) tv (Returned tt)
                /\ Forall quiet (tv ++ rest2))).
Proof.
  intros Hx Hreg Hgen Hequals.
  destruct (main_branch _ _ _ _ _ _ _ _ _ _ _ _ _ _ _ Hx Hreg Hgen)
    as (Hmajor & Hminor & Hregistry & Hjson & Hbranch).
  assert (Forall (fun ev => is_publish ev = false)
            (prepared fetcher info now client typings ++ tr ++ tg)) as Hquiet.
  { apply quiet_no_publish. rewrite app_assoc. by eapply reaching_quiet. }
  rewrite !app_assoc, <- (app_assoc _ tr tg), Forall_app.
  unfold branch in Hbranch. rewrite Hequals in Hbranch.
  cbn [negb] in Hbranch. exec_norm Hbranch. exec_step Hbranch.
  exec_step Hbranch.
  { split; [split; [done | all_events]|]. eexists. split; [done|]. left. eauto. }
  apply exec_bind in Hbranch
    as [(e & Hv & ->) | ([] & t1 & t2 & -> & Hv & Hlog)];
    apply exec_bind in Hv
      as [(e' & Hv & Ho) | ([] & tv & tt' & -> & Hv & Htag)]; simplify_eq.
  - pose proof (validateIsSubset_quiet _ _ _ _ Hv) as Hq. split.
    + split; [exact Hquiet|]. all_events. by apply quiet_no_publish.
    + eexists. split; [reflexivity|]. right. left. eexists _, _, _.
      split; [reflexivity|]. split; [exact Hv|]. split; [reflexivity|].
      all_events. eapply Forall_impl; [exact Hq|]. by intros ev [_ ?].
  - pose proof (validateIsSubset_quiet _ _ _ _ Hv) as Hq.
    exec_step Htag; [|by exec_ret Htag]. split.
    + split; [exact Hquiet|]. all_events. apply Forall_app.
      split; [by apply quiet_no_publish | all_events].
    + eexists. split; [reflexivity|]. right. right. eexists _, _, (inl _), [].
      split; [reflexivity|]. split; [exact Hv|]. rewrite app_nil_r. exact Hq.
  - pose proof (validateIsSubset_quiet _ _ _ _ Hv) as Hq.
    pose proof (writeLogs_quiet _ _ Hlog) as Hq'.
    exec_step Htag. exec_ret Htag. rewrite <- !app_assoc. split.
    + split; [exact Hquiet|]. all_events. apply Forall_app.
      split; [by apply quiet_no_publish|]. simpl. all_events.
      by apply quiet_no_publish.
    + eexists. split; [reflexivity|]. right. right. eexists _, _, (inr tt), _.
      split; [reflexivity|]. split; [exact Hv|].
      simpl. apply Forall_app. split; [exact Hq | exact Hq'].
Qed.
Lemma elem_of_keys {V} (m : gmap string V) (key : string) :
  key ∈ (map_to_list m).*1 <-> is_Some (m !! key).
Proof.
  rewrite list_elem_of_fmap. split.
  - intros ([k v] & -> & Hkv%elem_of_map_to_list). by exists v.
  - intros [v Hv]. exists (key, v). split; [done|]. by apply elem_of_map_to_list.
Qed.


(** ** The claims on the sample world *)

Lemma sample_world_well_behaved s : well_behaved (Sample.world s).
Proof. intros X c h e. by destruct c. Qed.

Ltac sample_run s :=
  apply (run_exec (Sample.world s));
  [apply sample_world_well_behaved | vm_compute; reflexivity].

Lemma C6_recent_publish_is_a_noop_witness :
  Sample.after 3 Sample.recent
    = [ELog "Was modified less than a week ago, so do nothing." (inr tt)]
  /\ Sample.outcome Sample.recent = Returned tt.
Proof.
  apply (C6_recent_publish_is_a_noop Sample.host Sample.options false
           Sample.fetcher (Sample.info Sample.recent) (Sample.now Sample.recent)).
  - sample_run Sample.recent.
  - vm_compute. reflexivity.
Defined.

(** C4 as it is stated fails: version 1.0.0 was tagged by hand three days
    ago; the run returns without any error, on the staleness guard. *)
Lemma C4_counterexample :
  (major (version (Sample.info Sample.foreign_recent)) <> 0%N
   \/ minor (version (Sample.info Sample.foreign_recent)) <> 1%N)
  /\ exec (main Sample.host Sample.options false Sample.fetcher)
       (started Sample.fetcher (Sample.info Sample.foreign_recent)
          (Sample.now Sample.foreign_recent)
        ++ [ELog "Was modified less than a week ago, so do nothing." (inr tt)])
       (Returned tt)
  /\ ~ (exists e : Err, Returned tt = Thrown e :> Outcome unit).
Proof.
  split; [left; vm_compute; discriminate|]. split.
  - sample_run Sample.foreign_recent.
  - intros [e [=]].
Qed.

Lemma C4_version_precondition_is_fatal_witness :
  (exists e, Sample.outcome Sample.foreign = Thrown e)
  /\ Forall (fun ev => is_publish ev = false /\ is_tag ev = false
                       /\ is_validation ev = false /\ is_write ev = false)
       (started Sample.fetcher (Sample.info Sample.foreign)
          (Sample.now Sample.foreign) ++ Sample.after 3 Sample.foreign)
  /\ (forall client typings tr reg,
        Sample.after 3 Sample.foreign
          = [ENpmClientCreate "next" (inr client); EReadTypings (inr typings)] ++ tr ->
        exec (generateRegistry typings Sample.fetcher Sample.options) tr (Returned reg) ->
        Sample.outcome Sample.foreign
          = Thrown (if (major (version (Sample.info Sample.foreign)) =? 0)%N
                    then AssertionError (minor (version (Sample.info Sample.foreign))) 1
                    else AssertionError (major (version (Sample.info Sample.foreign))) 0)).
Proof.
  apply (C4_version_precondition_is_fatal Sample.host Sample.options false
           Sample.fetcher (Sample.info Sample.foreign) (Sample.now Sample.foreign)).
  - sample_run Sample.foreign.
  - vm_compute. reflexivity.
  - left. vm_compute. discriminate.
Defined.

Lemma sample_registry_built :
  exec (generateRegistry Sample.typings Sample.fetcher Sample.options)
    Sample.fetches (Returned Sample.registry).
Proof. sample_run Sample.changed. Qed.

Lemma sample_bundle_written :
  exec (generate Sample.host (stringify Sample.host Sample.registry) Sample.manifest)
    Sample.bundle (Returned tt).
Proof. sample_run Sample.changed. Qed.

Lemma C10_bundle_regenerated_before_branch_witness :
  let info := Sample.info Sample.changed in
  let registry := stringify Sample.host Sample.registry in
  let newContentHash := computeHash Sample.host registry in
  let newVersion := versionString (next_patch (version info)) in
  let packageJson := generatePackageJson newVersion newContentHash in
  get "version" packageJson = Some (JString newVersion)
  /\ get "typesPublisherContentHash" packageJson = Some (JString newContentHash)
  /\ ((exists e, exec (generate Sample.host registry packageJson)
                   (Sample.after 8 Sample.changed) (Thrown e)
                 /\ Sample.outcome Sample.changed = Thrown e)
      \/ (exists rest',
            Sample.after 8 Sample.changed
              = regenerated Sample.host registry packageJson ++ rest'
            /\ exec
                 (bind (branch Sample.host Sample.options false Sample.client info
                          newContentHash packageJson newVersion)
                    (fun _ => writeLogs))
                 rest' (Sample.outcome Sample.changed))).
Proof.
  apply (C10_bundle_regenerated_before_branch Sample.host Sample.options false
           Sample.fetcher (Sample.info Sample.changed) (Sample.now Sample.changed)
           Sample.client Sample.typings Sample.fetches Sample.registry).
  - sample_run Sample.changed.
  - apply sample_registry_built.
  - vm_compute. reflexivity.
  - reflexivity.
  - reflexivity.
Defined.

Lemma C3_new_version_and_manifest_witness :
  let info := Sample.info Sample.changed in
  let newContentHash :=
    computeHash Sample.host (stringify Sample.host Sample.registry) in
  let newVersion := versionString (next_patch (version info)) in
  major (next_patch (version info)) = major (version info)
  /\ minor (next_patch (version info)) = minor (version info)
  /\ patch (next_patch (version info)) = (patch (version info) + 1)%N
  /\ Sample.manifest = generatePackageJson newVersion newContentHash
  /\ get "version" Sample.manifest = Some (JString newVersion)
  /\ get "typesPublisherContentHash" Sample.manifest = Some (JString newContentHash)
  /\ (equals (highestSemverVersion info) (version info) = true ->
      exists tp op rest',
        Sample.after 12 Sample.changed
          = ELog "New packages have been added, so publishing a new registry."
              (inr tt) :: tp ++ rest'
        /\ exec (publish Sample.host Sample.client Sample.manifest newVersion false)
             tp op).
Proof.
  apply (C3_new_version_and_manifest Sample.host Sample.options false
           Sample.fetcher (Sample.info Sample.changed) (Sample.now Sample.changed)
           Sample.client Sample.typings Sample.fetches Sample.registry
           (stringify Sample.host Sample.registry) Sample.manifest Sample.bundle
           (Sample.after 12 Sample.changed) (Sample.outcome Sample.changed)).
  - sample_run Sample.changed.
  - apply sample_registry_built.
  - apply sample_bundle_written.
  - vm_compute. discriminate.
Defined.

Lemma C1_publish_validate_then_tag_witness :
  let newVersion := versionString (next_patch (version (Sample.info Sample.changed))) in
  exists rest1,
    Sample.after 12 Sample.changed
      = ELog "New packages have been added, so publishing a new registry."
          (inr tt) :: rest1
    /\ ((exists e,
           rest1 = [uploaded Sample.host Sample.client Sample.manifest false (inl e)]
           /\ Sample.outcome Sample.changed = Thrown e)
        \/ (exists tv e,
              rest1 = uploaded Sample.host Sample.client Sample.manifest false (inr tt)
                      :: ESleep 20 (inr tt) :: tv
              /\ exec (validate Sample.host) tv (Thrown e)
              /\ Sample.outcome Sample.changed = Thrown e
              /\ Forall (fun ev => is_tag ev = false) rest1)
        \/ (exists ti ignore r rest2,
              rest1 = uploaded Sample.host Sample.client Sample.manifest false (inr tt)
                      :: ESleep 20 (inr tt)
                      :: ti ++ compared Sample.host ignore (inr tt)
                      :: EClientTag Sample.client packageName newVersion "latest" r
                      :: rest2
              /\ exec (installForValidate Sample.host) ti (Returned tt)
              /\ (forall f, ignore f = true <-> f = "package.json")
              /\ Forall quiet (ti ++ rest2))).
Proof.
  apply (C1_publish_validate_then_tag Sample.host Sample.options false
           Sample.fetcher (Sample.info Sample.changed) (Sample.now Sample.changed)
           Sample.client Sample.typings Sample.fetches Sample.registry
           (stringify Sample.host Sample.registry) Sample.manifest Sample.bundle
           (Sample.after 12 Sample.changed) (Sample.outcome Sample.changed)).
  - sample_run Sample.changed.
  - apply sample_registry_built.
  - apply sample_bundle_written.
  - reflexivity.
  - vm_compute. discriminate.
Defined.

Lemma C9_unchanged_registry_only_validates_witness :
  Forall quiet
    (Sample.prefix Sample.unchanged ++ Sample.fetches ++ Sample.bundle
     ++ Sample.after 12 Sample.unchanged)
  /\ exists tv ov rest',
      Sample.after 12 Sample.unchanged
        = ELog "No new packages published, so no need to publish new registry."
            (inr tt) :: tv ++ rest'
      /\ exec (validate Sample.host) tv ov
      /\ (forall e, ov = Thrown e ->
            rest' = [] /\ Sample.outcome Sample.unchanged = Thrown e)
      /\ (ov = Returned tt ->
          exists ti ignore,
            tv = ti ++ [compared Sample.host ignore (inr tt)]
            /\ exec (installForValidate Sample.host) ti (Returned tt)
            /\ forall f, ignore f = true <-> f = "package.json").
Proof.
  apply (C9_unchanged_registry_only_validates Sample.host Sample.options false
           Sample.fetcher (Sample.info Sample.unchanged) (Sample.now Sample.unchanged)
           Sample.client Sample.typings Sample.fetches Sample.registry
           (stringify Sample.host Sample.registry) Sample.manifest Sample.bundle
           (Sample.after 12 Sample.unchanged) (Sample.outcome Sample.unchanged)).
  - sample_run Sample.unchanged.
  - apply sample_registry_built.
  - apply sample_bundle_written.
  - reflexivity.
  - reflexivity.
Defined.

Lemma C2_promote_never_uploads_witness :
  Forall (fun ev => is_publish ev = false)
    (Sample.prefix Sample.untagged ++ Sample.fetches ++ Sample.bundle
     ++ Sample.after 12 Sample.untagged)
  /\ exists rest1,
      Sample.after 12 Sample.untagged
        = ELog "Old version of types-registry was never tagged latest, so updating"
            (inr tt) :: rest1
      /\ ((exists e,
             rest1 = [EReadNotNeededPackages Sample.options (inl e)]
             /\ Sample.outcome Sample.untagged = Thrown e)
          \/ (exists notNeeded tv e,
                rest1 = EReadNotNeededPackages Sample.options (inr notNeeded) :: tv
                /\ exec (validateIsSubset Sample.host notNeeded) tv (Thrown e)
                /\ Sample.outcome Sample.untagged = Thrown e
                /\ Forall (fun ev => is_tag ev = false) rest1)
          \/ (exists notNeeded tv r rest2,
                rest1 = EReadNotNeededPackages Sample.options (inr notNeeded)
                        :: tv
                        ++ EClientTag Sample.client packageName
                             (versionString
                                (highestSemverVersion (Sample.info Sample.untagged)))
                             "latest" r
                        :: rest2
                /\ exec (validateIsSubset Sample.host notNeeded) tv (Returned tt)
                /\ Forall quiet (tv ++ rest2))).
Proof.
  apply (C2_promote_never_uploads Sample.host Sample.options false
           Sample.fetcher (Sample.info Sample.untagged) (Sample.now Sample.untagged)
           Sample.client Sample.typings Sample.fetches Sample.registry
           (stringify Sample.host Sample.registry) Sample.manifest Sample.bundle
           (Sample.after 12 Sample.untagged) (Sample.outcome Sample.untagged)).
  - sample_run Sample.untagged.
  - apply sample_registry_built.
  - apply sample_bundle_written.
  - reflexivity.
Defined.


(** In the sample world the error names the key that nothing explains. *)
Example sample_subset_run_names_left_pad :
  Sample.subset_run.2
  = Thrown (Error "Actual types-registry has unexpected key left-pad").
Proof. vm_compute. reflexivity. Qed.

(** The scenarios of the specification, run: from 0.1.5 with a changed
    registry the run uploads once and tags 0.1.6; with 0.1.6 uploaded but
    untagged it uploads nothing and tags 0.1.6. *)
Example sample_changed_publishes_0_1_6 :
  filter (fun ev => is_publish ev || is_tag ev) (Sample.main_run Sample.changed).1
  = [ uploaded Sample.host Sample.client Sample.manifest false (inr tt);
      EClientTag Sample.client packageName "0.1.6" "latest" (inr tt) ]
  /\ Sample.outcome Sample.changed = Returned tt.
Proof. split; vm_compute; reflexivity. Qed.

Example sample_untagged_promotes_0_1_6 :
  filter (fun ev => is_publish ev || is_tag ev) (Sample.main_run Sample.untagged).1
  = [ EClientTag Sample.client packageName "0.1.6" "latest" (inr tt) ]
  /\ Sample.outcome Sample.untagged = Returned tt.
Proof. split; vm_compute; reflexivity. Qed.

(** ** More on the tag filter *)

(** The filter leaves the "latest" entry as it is, present or not. *)
Lemma filterTags_latest (tags : Tags) :
  filterTags tags !! "latest" = tags !! "latest".
Proof.
  rewrite filterTags_filter. destruct (tags !! "latest") as [v|] eqn:Hlatest.
  - apply map_lookup_filter_Some. split; [done | by left].
  - apply map_lookup_filter_None. by left.
Qed.

(** X1: the filter only drops entries: every entry of its result is an
    entry of its input, with the same version. *)
Theorem X1_filterTags_submap (tags : Tags) : filterTags tags ⊆ tags.
Proof. rewrite filterTags_filter. apply map_filter_subseteq. Qed.

(** X2: filtering a second time changes nothing. *)
Theorem X2_filterTags_idempotent (tags : Tags) :
  filterTags (filterTags tags) = filterTags tags.
Proof.
  rewrite (filterTags_filter (filterTags tags)), filterTags_latest.
  apply map_filter_id. intros tag v Hv.
  rewrite filterTags_filter in Hv. by apply map_lookup_filter_Some in Hv as [_ ?].
Qed.


(** ** More on the staleness guard *)

(** X4: [isAWeekAfter] reads the clock once and answers true exactly when
    more than 604800000 milliseconds have passed since [time]; at exactly
    one week the answer is false. *)
Theorem X4_isAWeekAfter_is_strict (time : Z) t o :
  exec (isAWeekAfter time) t o <->
  exists now, t = [EDateNow (inr now)]
              /\ o = Returned (bool_decide (604800000 < now - time)).
Proof.
  assert (forall now, more_than_a_week now time
                      = bool_decide (604800000 < now - time)) as Hweek.
  { intros now. apply eq_true_iff_eq.
    rewrite more_than_a_week_spec, bool_decide_eq_true. done. }
  unfold isAWeekAfter, mbind, Prog_bind, mret, Prog_ret, call. cbn [bind].
  rewrite exec_Do. unfold infallible, event. split.
  - intros [[[=] _] | (now & t' & -> & [-> ->])]. exists now. by rewrite Hweek.
  - intros (now & -> & ->). right. exists now, []. by rewrite Hweek.
Qed.

(** ** What the parts of the program call *)

Lemma only_calls_exec {A} (P : Event -> Prop) (p : Prog A) t o :
  only_calls P p -> exec p t o -> Forall P t.
Proof.
  revert t. induction p as [a | e | X c k IH]; intros t Hp; simpl.
  - by intros [-> _].
  - by intros [-> _].
  - destruct Hp as [Hc Hk].
    intros [(_ & e & -> & _) | (x & t' & -> & Hx)].
    + by repeat constructor.
    + constructor; [done|]. by eapply IH.
Qed.

Lemma only_calls_bind {A B} (P : Event -> Prop) (p : Prog A) (f : A -> Prog B) :
  only_calls P p -> (forall a, only_calls P (f a)) -> only_calls P (bind p f).
Proof.
  intros Hp Hf. revert Hp. induction p as [a | e | X c k IH]; simpl; [done | done |].
  intros [Hc Hk]. split; [done|]. intros x. by apply IH.
Qed.

Lemma only_calls_impl {A} (P Q : Event -> Prop) (p : Prog A) :
  (forall e, P e -> Q e) -> only_calls P p -> only_calls Q p.
Proof.
  intros HPQ. induction p as [a | e | X c k IH]; simpl; [done | done |].
  intros [Hc Hk]. split; [by intros r; apply HPQ | by intros x; apply IH].
Qed.

Ltac calls :=
  unfold mbind, Prog_bind, mret, Prog_ret, call; cbn [bind only_calls];
  repeat first
    [ done
    | split; [by intros [?|?]|]; intros ?
    | match goal with |- only_calls _ (if ?b then _ else _) => destruct b end ].

Lemma installForValidate_calls host :
  only_calls (fun e => among install_operations e = true) (installForValidate host).
Proof. unfold installForValidate. calls. Qed.

Lemma validate_calls host :
  only_calls (fun e => among validate_operations e = true) (validate host).
Proof.
  unfold validate, mbind, Prog_bind. apply only_calls_bind.
  - eapply only_calls_impl; [|apply installForValidate_calls]. by intros [].
  - intros []. calls.
Qed.

Lemma check_keys_calls P keys expected notNeeded :
  only_calls P (check_keys keys expected notNeeded).
Proof.
  induction keys as [|key keys IH]; [done|]. cbn [check_keys].
  by destruct (_ && _).
Qed.

Lemma validateIsSubset_calls host notNeeded :
  only_calls (fun e => among subset_operations e = true)
    (validateIsSubset host notNeeded).
Proof.
  unfold validateIsSubset, mbind, Prog_bind. apply only_calls_bind.
  - eapply only_calls_impl; [|apply installForValidate_calls]. by intros [].
  - intros []. unfold call. cbn [only_calls].
    split; [by intros [?|?]|]. intros ?.
    split; [by intros [?|?]|]. intros actual.
    split; [by intros [?|?]|]. intros expected.
    apply check_keys_calls.
Qed.

(** ** More on the validation *)

(** X7: what the install command prints never fails the installation:
    once the command has returned, [installForValidate] returns; what was
    printed goes to [console.error], trimmed, unless it is blank.  Before
    the command the scratch directory is emptied and a stub manifest is
    written there; the command installs types-registry@next in that
    directory. *)
Theorem X7_install_output_is_advisory host pre cmd cwd out rest o :
  exec (installForValidate host)
    (pre ++ EExecAndThrowErrors cmd cwd (inr out) :: rest) o ->
  o = Returned tt
  /\ rest = (if decide (trim out = EmptyString) then []
             else [EConsoleError (trim out) (inr tt)])
  /\ cmd = install_command host
  /\ cwd = validateOutputPath host
  /\ exists stub,
       pre = [ EEmptyDir (validateOutputPath host) (inr tt);
               EWriteJson (joinPaths host [validateOutputPath host; "package.json"])
                 stub (inr tt) ]
       /\ get "name" stub = Some (JString "validate").
Proof.
  intros Hx. unfold installForValidate in Hx. exec_norm Hx.
  exec_step Hx; [by destruct pre as [|? [|? ?]]|].
  exec_step Hx; [by destruct pre as [|? [|? [|? ?]]]|].
  exec_step Hx; [by destruct pre as [|? [|? [|? [|? ?]]]]|].
  exec_if Hx.
  - exec_ret Hx. apply bool_decide_eq_true in Hif.
    destruct pre as [|? [|? [|? [|? ?]]]]; simplify_eq/=.
    rewrite decide_True by done. do 4 (split; [done|]). by eexists.
  - exec_step Hx. exec_ret Hx. apply bool_decide_eq_false in Hif.
    destruct pre as [|? [|? [|? [|? [|? ?]]]]]; simplify_eq/=.
    rewrite decide_False by done. do 4 (split; [done|]). by eexists.
Qed.

(** X8: the subset validation compares the generated bundle with the
    installed copy ignoring package.json and index.json and nothing else,
    and it reads an index only after that comparison has succeeded. *)
Theorem X8_subset_validation_compares_first host notNeeded t o :
  exec (validateIsSubset host notNeeded) t o ->
  forall expected actual ignore r,
    EAssertDirectoriesEqual expected actual ignore r ∈ t ->
    expected = registryOutputPath host
    /\ actual = validateTypesRegistryPath host
    /\ (forall f, ignore f = true <-> f = "package.json" \/ f = "index.json")
    /\ (forall path r', EReadJson path r' ∈ t -> r = inr tt).
Proof.
  unfold validateIsSubset, mbind, Prog_bind.
  intros [(e & Hi & _) | ([] & t1 & t2 & -> & Hi & Hx)]%exec_bind
    expected actual ignore r Hin;
    pose proof (only_calls_exec _ _ _ _ (installForValidate_calls host) Hi) as Hops;
    rewrite Forall_forall in Hops.
  { by apply Hops in Hin. }
  assert (forall f, (f =? "package.json")%string || (f =? "index.json")%string = true
                    <-> f = "package.json" \/ f = "index.json") as Hignore.
  { intros f. by rewrite orb_true_iff, !String.eqb_eq. }
  assert (forall path r', EReadJson path r' ∈ t1 ++ t2 -> EReadJson path r' ∈ t2)
    as Hreads.
  { intros path r' [Hr|Hr]%elem_of_app; [by apply Hops in Hr | done]. }
  apply elem_of_app in Hin as [Hin | Hin]; [by apply Hops in Hin|].
  exec_step Hx.
  { apply list_elem_of_singleton in Hin as [= -> -> -> ->].
    do 3 (split; [done|]). intros path r' Hr%Hreads.
    by apply list_elem_of_singleton in Hr. }
  assert (forall l : list Event,
    Forall (fun e => operation e = OReadJson) l ->
    EAssertDirectoriesEqual expected actual ignore r ∈
      EAssertDirectoriesEqual (registryOutputPath host)
        (validateTypesRegistryPath host)
        (fun f => (f =? "package.json")%string || (f =? "index.json")%string)
        (inr ()) :: l ->
    expected = registryOutputPath host /\ actual = validateTypesRegistryPath host
    /\ (forall f, ignore f = true <-> f = "package.json" \/ f = "index.json")
    /\ r = inr ()) as Hfirst.
  { intros l Hl [[= -> -> -> ->] | Hl']%elem_of_cons; [done|].
    rewrite Forall_forall in Hl. by apply Hl in Hl'. }
  match type of Hx with exec _ ?l _ =>
    assert (Forall (fun e => operation e = OReadJson) l) as Hl
  end.
  { exec_step Hx; [all_events|]. exec_step Hx; [all_events|].
    apply check_keys_inv in Hx as [-> _]. all_events. }
  destruct (Hfirst _ Hl Hin) as (-> & -> & ? & ->). done.
Qed.

(** Once both indexes have been read, the outcome of the subset
    validation is that of the loop over the keys. *)
Lemma validateIsSubset_reads host notNeeded pre path path' actual expected o :
  exec (validateIsSubset host notNeeded)
    (pre ++ [EReadJson path (inr actual); EReadJson path' (inr expected)]) o ->
  exec (check_keys (map_to_list (entries actual)).*1 expected notNeeded) [] o.
Proof.
  unfold validateIsSubset, mbind, Prog_bind.
  intros [(e & Hx & _) | ([] & t1 & t2 & Heq & Hi & Hx)]%exec_bind.
  { apply installForValidate_writes_and_installs in Hx.
    apply Forall_app in Hx as [_ Hx]. apply Forall_cons in Hx as [Hx _].
    by destruct (Hx path (inr actual)). }
  assert (forall l (a b : Event) l' c,
    l ++ [a; b] = l' ++ c -> rev c ++ rev l' = b :: a :: rev l) as Hrev.
  { intros l a b l' c H. apply (f_equal (@rev Event)) in H.
    by rewrite !rev_app_distr in H. }
  do 3 (exec_step Hx; [by apply Hrev in Heq|]).
  pose proof (check_keys_inv _ _ _ _ _ Hx) as [-> _].
  apply Hrev in Heq. simpl in Heq.
  injection Heq as Hb Ha _. by simplify_eq.
Qed.

(** X9: the subset validation looks at the keys of the two indexes and
    never at the tags under them: when every key of the installed index
    is a key of the fresh one, it returns, whatever the versions are. *)
Theorem X9_subset_validation_compares_keys_only
    host notNeeded pre path path' actual expected o :
  exec (validateIsSubset host notNeeded)
    (pre ++ [EReadJson path (inr actual); EReadJson path' (inr expected)]) o ->
  dom (entries actual) ⊆ dom (entries expected) ->
  o = Returned tt.
Proof.
  intros Hx%validateIsSubset_reads Hdom.
  apply check_keys_inv in Hx as [_ [[-> _] | (key & Hkey & Hnone & _)]]; [done|].
  apply elem_of_keys, elem_of_dom, Hdom, elem_of_dom in Hkey as [v Hv].
  congruence.
Qed.

(** ** More on the upload *)

Lemma with_dry_other dry (l : list Event) :
  Forall (fun e => is_publish e = false) l -> map (with_dry dry) l = l.
Proof.
  induction 1 as [|e l He _ IH]; [done|]. simpl. rewrite IH. by destruct e.
Qed.

(** X10: the dry-run flag reaches the upload and nothing else.  A run of
    [publish] with one value of the flag is, up to the flag recorded in
    the upload, a run with the other value; so a dry run still sleeps,
    installs, compares and tags, and a run of [publish] that returns has
    tagged the version "latest" as its last call. *)
Theorem X10_dry_run_still_validates_and_tags
    host client packageJson version dry dry' t o :
  exec (publish host client packageJson version dry) t o ->
  exec (publish host client packageJson version dry') (map (with_dry dry') t) o
  /\ (o = Returned tt ->
      exists before,
        t = before ++ [EClientTag client packageName version "latest" (inr tt)]
        /\ Forall (fun e => is_tag e = false) before).
Proof.
  intros Hx. unfold publish in *. exec_norm Hx.
  unfold mbind, Prog_bind, call. cbn [bind].
  exec_step Hx.
  { split; [|done]. apply exec_Do. left. split; [done|]. by eexists. }
  match type of Hx with exec _ ?l _ => rename l into rest end.
  assert (Forall (fun e => is_publish e = false) rest) as Hrest.
  { eapply only_calls_exec; [|exact Hx]. cbn [only_calls].
    split; [done|]. intros _. apply only_calls_bind.
    - eapply only_calls_impl; [|apply validate_calls]. by intros [].
    - intros _. cbn [only_calls]. by split. }
  split.
  - cbn [map with_dry]. rewrite (with_dry_other _ _ Hrest).
    apply exec_Do. right. by exists tt, rest.
  - intros ->. exec_step Hx.
    apply exec_bind in Hx as [(e & _ & [=]) | ([] & tv & t2 & -> & Hv & Htag)].
    exec_step Htag. exec_ret Htag.
    eexists (_ :: _ :: tv). split; [done|]. all_events.
    eapply Forall_impl; [by eapply validate_quiet|]. by intros e [_ ?].
Qed.

(** ** More on the registry that is built *)

Lemma filterTags_no_alias (tags : Tags) tag v :
  filterTags tags !! tag = Some v -> tag <> "latest" ->
  filterTags tags !! "latest" <> Some v.
Proof.
  rewrite filterTags_latest, filterTags_filter.
  intros [_ [? | Hne]]%map_lookup_filter_Some Htag; simpl in *; congruence.
Qed.

Lemma generateRegistry_entries_sound typings fetcher entries0 t entries :
  exec (generateRegistry_entries typings fetcher entries0) t (Returned entries) ->
  forall key tags',
    entries !! key = Some tags' ->
    entries0 !! key = Some tags'
    \/ exists typing info tags,
         typing ∈ typings /\ name typing = key
         /\ EFetchNpmInfo (fullEscapedNpmName typing) fetcher (inr info) ∈ t
         /\ dist_tags info = Some tags /\ tags' = filterTags tags.
Proof.
  revert entries0 t. induction typings as [|typing typings IH]; intros entries0 t Hx.
  - exec_ret Hx. auto.
  - cbn [generateRegistry_entries] in Hx. exec_norm Hx. exec_step Hx.
    intros key tags' Hkey.
    destruct (IH _ _ Hx key tags' Hkey)
      as [Hold | (ty & info & tags & Hty & Hname & Hin & Htags & ->)].
    + destruct (dist_tags x) as [tags|] eqn:Htags; [|by left].
      destruct (decide (name typing = key)) as [<-|Hne].
      * rewrite lookup_insert_eq in Hold. injection Hold as <-.
        right. exists typing, x, tags. repeat split; [by left | by left | done].
      * rewrite lookup_insert_ne in Hold by done. by left.
    + right. exists ty, info, tags. repeat split; [by right | done | by right | done].
Qed.

(** X5: every entry of the registry that [generateRegistry] returns stands
    for a typing of that name whose fetch answered with dist-tags, and is
    those tags filtered; so no entry holds a tag, other than "latest",
    with the version of "latest". *)
Theorem X5_registry_entries_are_filtered_tags typings fetcher options t reg :
  exec (generateRegistry typings fetcher options) t (Returned reg) ->
  forall key tags',
    entries reg !! key = Some tags' ->
    (exists typing info tags,
       typing ∈ typings /\ name typing = key
       /\ EFetchNpmInfo (fullEscapedNpmName typing) fetcher (inr info) ∈ t
       /\ dist_tags info = Some tags /\ tags' = filterTags tags)
    /\ (forall tag v, tags' !! tag = Some v -> tag <> "latest" ->
          tags' !! "latest" <> Some v).
Proof.
  unfold generateRegistry, mbind, Prog_bind.
  intros [(e & _ & [=]) | (entries & t1 & t2 & -> & Hx & Hret)]%exec_bind
    key tags' Hkey.
  exec_ret Hret. rewrite app_nil_r. simpl in Hkey.
  destruct (generateRegistry_entries_sound _ _ _ _ _ Hx key tags' Hkey)
    as [Hempty | (ty & info & tags & Hty & Hname & Hin & Htags & ->)].
  { by rewrite lookup_empty in Hempty. }
  split; [by exists ty, info, tags|]. apply filterTags_no_alias.
Qed.

Lemma generateRegistry_entries_complete typings fetcher entries0 t entries :
  exec (generateRegistry_entries typings fetcher entries0) t (Returned entries) ->
  NoDup (name <$> typings) ->
  (forall typing, typing ∈ typings -> entries0 !! name typing = None) ->
  (exists infos,
     t = zip_with (fun typing info =>
           EFetchNpmInfo (fullEscapedNpmName typing) fetcher (inr info))
           typings infos
     /\ length infos = length typings
     /\ forall i typing info,
          typings !! i = Some typing -> infos !! i = Some info ->
          entries !! name typing = filterTags <$> dist_tags info)
  /\ forall key, key ∉ name <$> typings -> entries !! key = entries0 !! key.
Proof.
  revert entries0 t.
  induction typings as [|typing typings IH]; intros entries0 t Hx Hnodup Hfresh.
  - exec_ret Hx. split; [|done]. exists []. by repeat split.
  - cbn [generateRegistry_entries] in Hx. exec_norm Hx. exec_step Hx.
    rewrite fmap_cons in Hnodup. apply NoDup_cons in Hnodup as [Hhead Hnodup].
    edestruct (IH _ _ Hx Hnodup) as [(infos & -> & Hlen & Hall) Hother].
    { intros ty Hty. destruct (dist_tags x); [|apply Hfresh; by right].
      rewrite lookup_insert_ne; [apply Hfresh; by right|].
      intros Heq. apply Hhead. rewrite Heq. by apply list_elem_of_fmap_2. }
    split.
    + exists (x :: infos). split; [done|]. split; [by simpl; rewrite Hlen|].
      intros [|i] ty info; simpl.
      * intros [= <-] [= <-]. rewrite (Hother _ Hhead).
        destruct (dist_tags x); simpl; [by rewrite lookup_insert_eq|].
        apply Hfresh. by left.
      * apply Hall.
    + intros key [Hne Hkey]%not_elem_of_cons. rewrite (Hother _ Hkey).
      destruct (dist_tags x); [|done]. by rewrite lookup_insert_ne.
Qed.

(** X6: when the typings have distinct names, a returning run of
    [generateRegistry] has fetched every typing, with as many fetches as
    typings, and the registry holds, under the name of each typing, the
    filtered dist-tags of a fetch of that typing; a typing whose fetch has
    no dist-tags has no entry, and neither has a key that is no typing's
    name. *)
Theorem X6_registry_has_an_entry_per_published_typing
    typings fetcher options t reg :
  exec (generateRegistry typings fetcher options) t (Returned reg) ->
  NoDup (name <$> typings) ->
  length t = length typings
  /\ (forall typing, typing ∈ typings ->
        exists info,
          EFetchNpmInfo (fullEscapedNpmName typing) fetcher (inr info) ∈ t
          /\ entries reg !! name typing = filterTags <$> dist_tags info)
  /\ forall key, key ∉ name <$> typings -> entries reg !! key = None.
Proof.
  unfold generateRegistry, mbind, Prog_bind.
  intros [(e & _ & [=]) | (entries & t1 & t2 & -> & Hx & Hret)]%exec_bind Hnodup.
  exec_ret Hret. rewrite app_nil_r. simpl.
  destruct (generateRegistry_entries_complete _ _ _ _ _ Hx Hnodup)
    as [(infos & -> & Hlen & Hall) Hother]; [done|].
  split; [|split].
  - rewrite length_zip_with. lia.
  - intros typing [i Hi]%list_elem_of_lookup.
    destruct (lookup_lt_is_Some_2 infos i) as [info Hinfo].
    { rewrite Hlen. by eapply lookup_lt_Some. }
    exists info. split; [|by eapply Hall].
    apply elem_of_lookup_zip_with. by exists i, typing, info.
  - intros key Hkey. by rewrite (Hother _ Hkey).
Qed.

(** ** The run as a whole *)

Lemma generateRegistry_calls typings fetcher options :
  only_calls (fun e => among early_operations e = true)
    (generateRegistry typings fetcher options).
Proof.
  unfold generateRegistry, mbind, Prog_bind. apply only_calls_bind; [|done].
  generalize (∅ : gmap string Tags).
  induction typings as [|typing typings IH]; intros entries; [done|].
  cbn [generateRegistry_entries]. unfold mbind, Prog_bind, call. cbn [bind only_calls].
  split; [by intros [?|?]|]. intros info. apply IH.
Qed.

Lemma generate_calls host registry packageJson :
  only_calls (fun e => among generate_operations e = true)
    (generate host registry packageJson).
Proof. unfold generate. calls. Qed.

Lemma publish_calls host client packageJson version dry :
  only_calls (fun e => among branch_operations e = true)
    (publish host client packageJson version dry).
Proof.
  unfold publish, mbind, Prog_bind, call. cbn [bind only_calls].
  split; [by intros [?|?]|]. intros ?. split; [by intros [?|?]|]. intros ?.
  apply only_calls_bind.
  - eapply only_calls_impl; [|apply validate_calls]. by intros [].
  - intros ?. cbn [only_calls]. split; [by intros [?|?]|]. done.
Qed.

Lemma branch_calls host options dry client info newContentHash packageJson newVersion :
  only_calls (fun e => among branch_operations e = true)
    (branch host options dry client info newContentHash packageJson newVersion).
Proof.
  unfold branch. destruct (negb (equals _ _)); [|destruct (negb (_ =? _)%string)];
    unfold mbind, Prog_bind, call; cbn [bind only_calls];
    (split; [by intros [?|?]|]); intros ?.
  - split; [by intros [?|?]|]. intros notNeeded. apply only_calls_bind.
    + eapply only_calls_impl; [|apply validateIsSubset_calls]. by intros [].
    + intros ?. cbn [only_calls]. split; [by intros [?|?]|]. done.
  - apply publish_calls.
  - eapply only_calls_impl; [|apply validate_calls]. by intros [].
Qed.

(** A run either ends before the bundle is regenerated, having called
    only the registry, the clock and the logger, or goes on from the
    assertions that passed to [generate], the branch and the log. *)
Lemma main_runs host options dry fetcher t o :
  exec (main host options dry fetcher) t o ->
  (Forall (fun e => among early_operations e = true) t
   /\ (o = Returned tt ->
       exists info now,
         t = started fetcher info now
             ++ [ELog "Was modified less than a week ago, so do nothing." (inr tt)]
         /\ more_than_a_week now (lastModified info) = false))
  \/ exists info now client typings tr reg rest,
       t = prepared fetcher info now client typings ++ tr ++ rest
       /\ exec (generateRegistry typings fetcher options) tr (Returned reg)
       /\ more_than_a_week now (lastModified info) = true
       /\ major (version info) = 0%N /\ minor (version info) = 1%N
       /\ exec
            (bind (generate host (stringify host reg)
                     (generatePackageJson
                        (versionString (next_patch (version info)))
                        (computeHash host (stringify host reg)))) (fun _ =>
             bind (branch host options dry client info
                     (computeHash host (stringify host reg))
                     (generatePackageJson
                        (versionString (next_patch (version info)))
                        (computeHash host (stringify host reg)))
                     (versionString (next_patch (version info))))
               (fun _ => writeLogs)))
            rest o.
Proof.
  intros Hx. unfold main, isAWeekAfter in Hx. exec_norm Hx.
  exec_step Hx. exec_step Hx; [left; split; [all_events | done]|].
  exec_step Hx. exec_if Hx.
  { exec_step Hx. exec_ret Hx. left. split; [all_events|]. intros _.
    apply negb_true_iff in Hif. by eexists _, _. }
  apply negb_false_iff in Hif.
  exec_step Hx; [left; split; [all_events | done]|].
  exec_step Hx; [left; split; [all_events | done]|].
  apply exec_bind in Hx as [(e & Hreg & ->) | (reg & tr & rest & -> & Hreg & Hx)].
  { left. split; [|done]. all_events.
    eapply only_calls_exec; [apply generateRegistry_calls | exact Hreg]. }
  unfold assert_equal in Hx.
  destruct (major _ =? 0)%N eqn:Hmajor.
  2:{ destruct Hx as [-> ->]. left. split; [|done]. all_events. rewrite app_nil_r.
      eapply only_calls_exec; [apply generateRegistry_calls | exact Hreg]. }
  destruct (minor _ =? 1)%N eqn:Hminor.
  2:{ destruct Hx as [-> ->]. left. split; [|done]. all_events. rewrite app_nil_r.
      eapply only_calls_exec; [apply generateRegistry_calls | exact Hreg]. }
  apply N.eqb_eq in Hmajor, Hminor. cbn [bind] in Hx.
  rewrite (newVersion_next_patch _ Hmajor Hminor) in Hx.
  right. eexists _, _, _, _, tr, reg, rest. by repeat split.
Qed.


Lemma validateIsSubset_returned_compared host notNeeded tv :
  exec (validateIsSubset host notNeeded) tv (Returned tt) ->
  exists ignore, compared host ignore (inr tt) ∈ tv.
Proof.
  unfold validateIsSubset, mbind, Prog_bind.
  intros [(e & _ & [=]) | ([] & t1 & t2 & -> & _ & Hx)]%exec_bind.
  exec_step Hx. eexists. apply elem_of_app. right. by left.
Qed.

(** The tag of a run of the branch: none, or one at the end, after a
    comparison that succeeded. *)
Lemma branch_tags host options dry client info newContentHash packageJson
    newVersion tb ob :
  exec (branch host options dry client info newContentHash packageJson newVersion)
    tb ob ->
  Forall (fun e => is_tag e = false) tb
  \/ exists before version r ignore,
       tb = before ++ [EClientTag client packageName version "latest" r]
       /\ Forall (fun e => is_tag e = false) before
       /\ compared host ignore (inr tt) ∈ before
       /\ ob = match r with inl e => Thrown e | inr _ => Returned tt end.
Proof.
  intros Hx. unfold branch in Hx.
  destruct (negb (equals _ _)); [|destruct (negb (_ =? _)%string)];
    exec_norm Hx; exec_step Hx.
  - exec_step Hx; [left; all_events|].
    apply exec_bind in Hx as [(e & Hv & ->) | ([] & tv & t2 & -> & Hv & Htag)].
    + left. all_events. eapply Forall_impl; [by eapply validateIsSubset_quiet|].
      by intros e' [_ ?].
    + right. destruct (validateIsSubset_returned_compared _ _ _ Hv) as [ignore Hc].
      assert (Forall (fun e => is_tag e = false) tv) as Hq.
      { eapply Forall_impl; [by eapply validateIsSubset_quiet|]. by intros e' [_ ?]. }
      exec_step Htag; [|exec_ret Htag]; eexists (_ :: _ :: tv), _, _, ignore;
        (split; [done|]); (split; [all_events; exact Hq|]);
        (split; [by do 2 right|done]).
  - unfold publish in Hx. exec_norm Hx.
    exec_step Hx; [left; all_events|]. exec_step Hx.
    apply exec_bind in Hx as [(e & Hv & ->) | ([] & tv & t2 & -> & Hv & Htag)].
    + left. all_events. eapply Forall_impl; [by eapply validate_quiet|].
      by intros e' [_ ?].
    + right. apply validate_returned in Hv as (ti & ignore & -> & Hi & _).
      assert (Forall (fun e => is_tag e = false) ti) as Hq.
      { eapply Forall_impl; [by eapply installForValidate_quiet|]. by intros e' [_ ?]. }
      exec_step Htag; [|exec_ret Htag];
        eexists (_ :: _ :: _ :: ti ++ [_]), _, _, ignore;
        (split; [done|]);
        (split; [all_events; apply Forall_app; split; [exact Hq | all_events]|]);
        (split; [|done]); do 3 right; apply elem_of_app; right; by left.
  - left. all_events. eapply Forall_impl; [by eapply validate_quiet|].
    by intros e' [_ ?].
Qed.


Ltac forall_app := rewrite ?Forall_app in *; tauto.

Ltac ops_of lemma Hrun :=
  eapply Forall_impl;
  [eapply only_calls_exec; [apply lemma | exact Hrun] | by intros []].

(** X11: in every run of [main] there is at most one tag call; it tags
    types-registry "latest", and before it in the run there is a
    comparison of the generated bundle with the installed copy that
    succeeded. *)
Theorem X11_tag_only_after_successful_comparison host options dry fetcher t o :
  exec (main host options dry fetcher) t o ->
  Forall (fun e => is_tag e = false) t
  \/ exists before client version r after ignore,
       t = before ++ EClientTag client packageName version "latest" r :: after
       /\ Forall (fun e => is_tag e = false) (before ++ after)
       /\ compared host ignore (inr tt) ∈ before.
Proof.
  intros [[Hearly _] | (info & now & client & typings & tr & reg & rest & -> & Hreg
                        & _ & _ & _ & Hx)]%main_runs.
  { left. eapply Forall_impl; [exact Hearly|]. by intros []. }
  assert (Forall (fun e => is_tag e = false)
            (prepared fetcher info now client typings ++ tr)) as Hpre.
  { apply Forall_app. split; [unfold prepared, started; simpl; all_events|].
    ops_of generateRegistry_calls Hreg. }
  apply exec_bind in Hx as [(e & Hgen & ->) | ([] & tg & rest' & -> & Hgen & Hx)].
  { left. assert (Forall (fun e => is_tag e = false) rest)
      by ops_of generate_calls Hgen. forall_app. }
  assert (Forall (fun e => is_tag e = false) tg) as Htg
    by ops_of generate_calls Hgen.
  apply exec_bind in Hx as [(e & Hb & ->) | ([] & tb & tw & -> & Hb & Hlog)].
  - destruct (branch_tags _ _ _ _ _ _ _ _ _ _ Hb)
      as [Hno | (before & version & r & ignore & -> & Hbefore & Hc & _)].
    + left. forall_app.
    + right.
      exists (prepared fetcher info now client typings ++ tr ++ tg ++ before),
        client, version, r, [], ignore.
      rewrite <- !app_assoc. split; [done|]. rewrite !app_nil_r. split.
      * forall_app.
      * rewrite !elem_of_app. auto.
  - assert (Forall (fun e => is_tag e = false) tw) as Htw.
    { eapply Forall_impl; [by eapply writeLogs_quiet|]. by intros e' [_ ?]. }
    destruct (branch_tags _ _ _ _ _ _ _ _ _ _ Hb)
      as [Hno | (before & version & r & ignore & -> & Hbefore & Hc & _)].
    + left. forall_app.
    + right.
      exists (prepared fetcher info now client typings ++ tr ++ tg ++ before),
        client, version, r, tw, ignore.
      rewrite <- !app_assoc. split; [done|]. split.
      * forall_app.
      * rewrite !elem_of_app. auto.
Qed.


(** X13: [main] writes the log file at most once, as its last call, with
    what the logger has collected; it does so only when nothing has thrown
    before, and then the run ends as that write ends.  A run that stops on
    the staleness guard returns without writing the log file. *)
Theorem X13_log_file_written_last host options dry fetcher t o :
  exec (main host options dry fetcher) t o ->
  (Forall (fun e => operation e <> OWriteLog) t
   /\ (o = Returned tt ->
       exists info now,
         t = started fetcher info now
             ++ [ELog "Was modified less than a week ago, so do nothing." (inr tt)]
         /\ more_than_a_week now (lastModified info) = false))
  \/ exists before logged r,
       t = before ++ [ELogResult (inr logged);
                      EWriteLog "publish-registry.md" logged r]
       /\ Forall (fun e => among before_log_operations e = true) before
       /\ o = match r with inl e => Thrown e | inr _ => Returned tt end.
Proof.
  intros [[Hearly Hret] | (info & now & client & typings & tr & reg & rest & -> & Hreg
                           & _ & _ & _ & Hx)]%main_runs.
  { left. split; [|done]. eapply Forall_impl; [exact Hearly|]. by intros []. }
  assert (Forall (fun e => among before_log_operations e = true)
            (prepared fetcher info now client typings ++ tr)) as Hpre.
  { apply Forall_app. split; [unfold prepared, started; simpl; all_events|].
    ops_of generateRegistry_calls Hreg. }
  assert (forall l : list Event,
    Forall (fun e => among before_log_operations e = true) l ->
    Forall (fun e => operation e <> OWriteLog) l) as Hweaken.
  { intros l Hl. eapply Forall_impl; [exact Hl|]. by intros []. }
  apply exec_bind in Hx as [(e & Hgen & ->) | ([] & tg & rest' & -> & Hgen & Hx)].
  { left. split; [|done]. apply Hweaken.
    assert (Forall (fun e => among before_log_operations e = true) rest)
      by ops_of generate_calls Hgen. forall_app. }
  assert (Forall (fun e => among before_log_operations e = true) tg) as Htg
    by ops_of generate_calls Hgen.
  apply exec_bind in Hx as [(e & Hb & ->) | ([] & tb & tw & -> & Hb & Hlog)].
  { left. split; [|done]. apply Hweaken.
    assert (Forall (fun e => among before_log_operations e = true) rest')
      by ops_of branch_calls Hb. forall_app. }
  assert (Forall (fun e => among before_log_operations e = true) tb) as Htb
    by ops_of branch_calls Hb.
  right. unfold writeLogs in Hlog. exec_norm Hlog. exec_step Hlog.
  exists (prepared fetcher info now client typings ++ tr ++ tg ++ tb).
  exec_step Hlog; [|exec_ret Hlog]; eexists _, _; rewrite <- !app_assoc;
    (split; [done|]); (split; [|done]); forall_app.
Qed.

Lemma branch_returned_compared host options dry client info newContentHash
    packageJson newVersion tb :
  exec (branch host options dry client info newContentHash packageJson newVersion)
    tb (Returned tt) ->
  exists ignore, compared host ignore (inr tt) ∈ tb.
Proof.
  intros Hx.
  destruct (branch_tags _ _ _ _ _ _ _ _ _ _ Hx)
    as [Hno | (before & version & r & ignore & -> & _ & Hc & _)].
  2:{ exists ignore. apply elem_of_app. by left. }
  unfold branch in Hx.
  destruct (negb (equals _ _)); [|destruct (negb (_ =? _)%string)];
    exec_norm Hx; exec_step Hx.
  - exec_step Hx.
    apply exec_bind in Hx as [(e & _ & [=]) | ([] & tv & t2 & -> & Hv & Htag)].
    exec_step Htag. exec_ret Htag.
    apply Forall_cons in Hno as [_ Hno]. apply Forall_cons in Hno as [_ Hno].
    apply Forall_app in Hno as [_ Hno]. by apply Forall_cons in Hno as [? _].
  - unfold publish in Hx. exec_norm Hx. do 2 exec_step Hx.
    apply exec_bind in Hx as [(e & _ & [=]) | ([] & tv & t2 & -> & Hv & Htag)].
    exec_step Htag. exec_ret Htag.
    do 3 apply Forall_cons in Hno as [_ Hno].
    apply Forall_app in Hno as [_ Hno]. by apply Forall_cons in Hno as [? _].
  - apply validate_returned in Hx as (ti & ignore & -> & _ & _).
    exists ignore. right. apply elem_of_app. right. by left.
Qed.

(** X14: a run of [main] that returns has either stopped on the staleness
    guard or made a comparison of the generated bundle with the installed
    copy that succeeded: past the guard there is no way to the end of
    [main] around the validation. *)
Theorem X14_no_return_without_validation host options dry fetcher t :
  exec (main host options dry fetcher) t (Returned tt) ->
  (exists info now,
     t = started fetcher info now
         ++ [ELog "Was modified less than a week ago, so do nothing." (inr tt)]
     /\ more_than_a_week now (lastModified info) = false)
  \/ exists ignore, compared host ignore (inr tt) ∈ t.
Proof.
  intros [[_ Hret] | (info & now & client & typings & tr & reg & rest & -> & Hreg
                      & _ & _ & _ & Hx)]%main_runs; [left; by apply Hret|].
  right.
  apply exec_bind in Hx as [(e & _ & [=]) | ([] & tg & rest' & -> & Hgen & Hx)].
  apply exec_bind in Hx as [(e & _ & [=]) | ([] & tb & tw & -> & Hb & Hlog)].
  destruct (branch_returned_compared _ _ _ _ _ _ _ _ _ Hb) as [ignore Hc].
  exists ignore. rewrite !elem_of_app. auto.
Qed.

(** ** The dependencies of a generated package *)

Section PackageGeneratorFacts.

Import PackageGenerator.

Variable prereleaseTag : option string.
Variable fullPackageName : string -> string.
Variable availableTypes : gmap string TypingsData.
Variable version : N.

Local Abbreviation add := (addDependency prereleaseTag fullPackageName availableTypes version).
Local Abbreviation range := (dependency_range prereleaseTag).

Lemma addDependency_cases dependencies d :
  (add dependencies d = dependencies
   /\ (is_Some (dependencies !! d) \/ availableTypes !! d = None))
  \/ exists type,
       dependencies !! d = None /\ availableTypes !! d = Some type
       /\ add dependencies d = <[fullPackageName d := range type version]> dependencies.
Proof.
  unfold addDependency.
  destruct (bool_decide (is_Some (dependencies !! d))) eqn:Hd; simpl.
  { left. apply bool_decide_eq_true in Hd. auto. }
  apply bool_decide_eq_false in Hd. apply eq_None_not_Some in Hd.
  destruct (availableTypes !! d) as [type|] eqn:Ha.
  - rewrite bool_decide_eq_true_2 by eauto. simpl. right. by exists type.
  - rewrite bool_decide_eq_false_2 by (by intros [? ?]). simpl. left. auto.
Qed.

Lemma foldl_addDependency_origin ds dependencies key v :
  foldl add dependencies ds !! key = Some v ->
  dependencies !! key = Some v
  \/ exists d type,
       d ∈ ds /\ availableTypes !! d = Some type
       /\ key = fullPackageName d /\ v = range type version.
Proof.
  revert dependencies. induction ds as [|d ds IH]; intros dependencies; simpl; [auto|].
  intros [Hold | (d' & type & Hd' & Ha & -> & ->)]%IH.
  - destruct (addDependency_cases dependencies d)
      as [[Heq _] | (type & _ & Ha & Heq)]; rewrite Heq in Hold; [by left|].
    destruct (decide (fullPackageName d = key)) as [<-|Hne].
    + rewrite lookup_insert_eq in Hold. injection Hold as <-.
      right. exists d, type. split; [by left | done].
    + rewrite lookup_insert_ne in Hold by done. by left.
  - right. exists d', type. split; [by right | done].
Qed.

Lemma foldl_addDependency_other ds dependencies key :
  (forall d, d ∈ ds -> fullPackageName d <> key) ->
  foldl add dependencies ds !! key = dependencies !! key.
Proof.
  revert dependencies. induction ds as [|d ds IH]; intros dependencies Hkey; [done|].
  simpl. rewrite IH by (intros d' Hd'; apply Hkey; by right).
  destruct (addDependency_cases dependencies d)
    as [[-> _] | (type & _ & _ & ->)]; [done|].
  apply lookup_insert_ne, Hkey. by left.
Qed.

Lemma foldl_addDependency_grows ds dependencies :
  dom dependencies ⊆ dom (foldl add dependencies ds).
Proof.
  revert dependencies. induction ds as [|d ds IH]; intros dependencies; [done|].
  simpl. etrans; [|apply IH].
  destruct (addDependency_cases dependencies d)
    as [[-> _] | (type & _ & _ & ->)]; [done|].
  rewrite dom_insert. set_solver.
Qed.

(** X15: [addInferredDependencies] only adds: the dependencies it was
    given keep their keys, those under a key that is not the full package
    name of a listed dependency keep their range too, and every other
    entry of the result is the range of a typing known under the name of a
    module or library dependency, stored under its full package name.  A
    dependency that is no known typing adds nothing. *)
Theorem X15_inferred_dependencies_are_known_typings
    (dependencies : gmap string string) (typing : TypingsData) :
  let listed := moduleDependencies typing ++ libraryDependencies typing in
  let result :=
    addInferredDependencies prereleaseTag fullPackageName dependencies typing
      availableTypes version in
  dom dependencies ⊆ dom result
  /\ (forall key, (forall d, d ∈ listed -> fullPackageName d <> key) ->
        result !! key = dependencies !! key)
  /\ (forall key v, result !! key = Some v ->
        dependencies !! key = Some v
        \/ exists d type,
             d ∈ listed /\ availableTypes !! d = Some type
             /\ key = fullPackageName d /\ v = range type version).
Proof.
  intros listed result. subst listed result. unfold addInferredDependencies.
  split; [|split].
  - etrans; [apply foldl_addDependency_grows|]. apply foldl_addDependency_grows.
  - intros key Hkey.
    rewrite !foldl_addDependency_other; [done|..];
      intros d Hd; apply Hkey, elem_of_app; auto.
  - intros key v [[Hold | Hnew]%foldl_addDependency_origin | Hnew]%foldl_addDependency_origin;
      [by left | right..];
      destruct Hnew as (d & type & Hd & Hrest); exists d, type;
      (split; [apply elem_of_app; auto | done]).
Qed.

Lemma foldl_addDependency_known ds dependencies d type :
  availableTypes !! d = Some type ->
  (forall d', d' ∈ ds -> fullPackageName d' <> d) ->
  (forall d', d' ∈ ds -> fullPackageName d' = fullPackageName d -> d' = d) ->
  dependencies !! fullPackageName d = Some (range type version)
  \/ (d ∈ ds /\ dependencies !! d = None) ->
  foldl add dependencies ds !! fullPackageName d = Some (range type version).
Proof.
  intros Ha. revert dependencies.
  induction ds as [|d0 ds IH]; intros dependencies Hraw Hinj Hstart.
  { destruct Hstart as [? | [?%elem_of_nil _]]; done. }
  simpl. apply IH.
  { intros d' Hd'. apply Hraw. by right. }
  { intros d' Hd'. apply Hinj. by right. }
  destruct (addDependency_cases dependencies d0)
    as [[-> Hskip] | (type0 & Hnone & Ha0 & ->)].
  - destruct Hstart as [? | [[-> | ?]%elem_of_cons Hnone]]; [by left | | by right].
    destruct Hskip as [[? ?] | ?]; congruence.
  - destruct (decide (d0 = d)) as [-> | Hne].
    + left. rewrite lookup_insert_eq. congruence.
    + assert (fullPackageName d0 <> fullPackageName d) as Hfull.
      { intros Heq. apply Hne, Hinj; [by left | done]. }
      assert (fullPackageName d0 <> d) as Hraw0 by (apply Hraw; by left).
      rewrite !lookup_insert_ne by done.
      destruct Hstart as [? | [[-> | ?]%elem_of_cons ?]]; [by left | done | by right].
Qed.

(** X16: a module or library dependency that is a known typing and was
    not declared under its own name ends up in the result under its full
    package name, with the range of that typing, provided that among the
    listed dependencies no full package name is that name and no other
    one has the same full package name. *)
Theorem X16_known_dependency_is_added
    (dependencies : gmap string string) (typing : TypingsData) d type :
  let listed := moduleDependencies typing ++ libraryDependencies typing in
  d ∈ listed ->
  availableTypes !! d = Some type ->
  dependencies !! d = None ->
  (forall d', d' ∈ listed -> fullPackageName d' <> d) ->
  (forall d', d' ∈ listed -> fullPackageName d' = fullPackageName d -> d' = d) ->
  addInferredDependencies prereleaseTag fullPackageName dependencies typing
    availableTypes version !! fullPackageName d
  = Some (range type version).
Proof.
  intros listed Hd Ha Hnone Hraw Hinj. subst listed. unfold addInferredDependencies.
  assert (forall d', d' ∈ moduleDependencies typing -> fullPackageName d' <> d)
    as Hraw1 by (intros d' ?; apply Hraw, elem_of_app; auto).
  apply foldl_addDependency_known; [done | | |].
  - intros d' ?. apply Hraw, elem_of_app. auto.
  - intros d' ?. apply Hinj, elem_of_app. auto.
  - destruct (decide (d ∈ moduleDependencies typing)) as [Hmod | Hmod].
    + left. apply foldl_addDependency_known; [done | done | | auto].
      intros d' ?. apply Hinj, elem_of_app. auto.
    + right. apply elem_of_app in Hd as [? | Hlib]; [done|]. split; [done|].
      by rewrite foldl_addDependency_other.
Qed.

End PackageGeneratorFacts.

Lemma X16_known_dependency_is_added_witness :
  PackageGenerator.addInferredDependencies None
    PackageGenerator.sample_fullPackageName PackageGenerator.sample_declared
    PackageGenerator.sample_typing PackageGenerator.sample_available 7
    !! PackageGenerator.sample_fullPackageName "jquery"
  = Some (PackageGenerator.dependency_range None
            {| PackageGenerator.moduleDependencies := [];
               PackageGenerator.libraryDependencies := [];
               PackageGenerator.libraryMajorVersion := 3;
               PackageGenerator.libraryMinorVersion := 5 |} 7).
Proof.
  apply (X16_known_dependency_is_added None PackageGenerator.sample_fullPackageName
           PackageGenerator.sample_available 7 PackageGenerator.sample_declared
           PackageGenerator.sample_typing "jquery").
  - vm_compute. by right; left.
  - vm_compute. reflexivity.
  - vm_compute. reflexivity.
  - intros d' Hd'. vm_compute in Hd'.
    repeat (apply elem_of_cons in Hd' as [-> | Hd']; [vm_compute; discriminate|]).
    by apply elem_of_nil in Hd'.
  - intros d' Hd' Heq. vm_compute in Hd'.
    repeat (apply elem_of_cons in Hd' as [-> | Hd'];
            [first [reflexivity | vm_compute in Heq; discriminate]|]).
    by apply elem_of_nil in Hd'.
Defined.

(** The sample, run: http is no known typing and adds nothing; jquery and
    node are added; the declared dependency stays. *)
Example sample_inferred_dependencies :
  let result :=
    PackageGenerator.addInferredDependencies None
      PackageGenerator.sample_fullPackageName PackageGenerator.sample_declared
      PackageGenerator.sample_typing PackageGenerator.sample_available 7 in
  result !! "@types/jquery" = Some "3.5.*"
  /\ result !! "@types/node" = Some "12.0.*"
  /\ result !! "@types/http" = None
  /\ result !! "left-pad" = Some "^1.0.0"
  /\ size result = 3%nat.
Proof. vm_compute. by repeat split. Qed.

(** ** The further properties on the sample world *)

Lemma sample_exec {A} (s : Sample.Scenario) (p : Prog A) :
  exec p (run (Sample.world s) p).1 (run (Sample.world s) p).2.
Proof.
  apply (run_exec (Sample.world s)); [apply sample_world_well_behaved|].
  by destruct (run (Sample.world s) p).
Qed.

Lemma X5_registry_entries_are_filtered_tags_witness :
  let tags' : Tags := <["latest" := "3.5.0"]> (<["ts1.8" := "2.0.1"]> ∅) in
  (exists typing info tags,
     typing ∈ Sample.typings /\ name typing = "jquery"
     /\ EFetchNpmInfo (fullEscapedNpmName typing) Sample.fetcher (inr info)
          ∈ Sample.fetches
     /\ dist_tags info = Some tags /\ tags' = filterTags tags)
  /\ (forall tag v, tags' !! tag = Some v -> tag <> "latest" ->
        tags' !! "latest" <> Some v).
Proof.
  intros tags'.
  apply (X5_registry_entries_are_filtered_tags Sample.typings Sample.fetcher
           Sample.options Sample.fetches Sample.registry
           sample_registry_built "jquery" tags').
  vm_compute. reflexivity.
Defined.

Lemma X6_registry_has_an_entry_per_published_typing_witness :
  length Sample.fetches = length Sample.typings
  /\ (forall typing, typing ∈ Sample.typings ->
        exists info,
          EFetchNpmInfo (fullEscapedNpmName typing) Sample.fetcher (inr info)
            ∈ Sample.fetches
          /\ entries Sample.registry !! name typing = filterTags <$> dist_tags info)
  /\ forall key, key ∉ name <$> Sample.typings ->
       entries Sample.registry !! key = None.
Proof.
  apply (X6_registry_has_an_entry_per_published_typing Sample.typings
           Sample.fetcher Sample.options Sample.fetches Sample.registry).
  - apply sample_registry_built.
  - apply (bool_decide_unpack _). vm_compute. exact I.
Defined.

Lemma X7_install_output_is_advisory_witness :
  let t := (run (Sample.world Sample.changed) (installForValidate Sample.host)).1 in
  let o := (run (Sample.world Sample.changed) (installForValidate Sample.host)).2 in
  o = Returned tt
  /\ [] = (if decide (trim EmptyString = EmptyString) then []
           else [EConsoleError (trim EmptyString) (inr tt)])
  /\ install_command Sample.host = install_command Sample.host
  /\ validateOutputPath Sample.host = validateOutputPath Sample.host
  /\ exists stub,
       take 2 t
       = [ EEmptyDir (validateOutputPath Sample.host) (inr tt);
           EWriteJson
             (joinPaths Sample.host [validateOutputPath Sample.host; "package.json"])
             stub (inr tt) ]
       /\ get "name" stub = Some (JString "validate").
Proof.
  intros t o.
  apply (X7_install_output_is_advisory Sample.host (take 2 t)
           (install_command Sample.host) (validateOutputPath Sample.host)
           EmptyString [] o).
  apply (run_exec (Sample.world Sample.changed));
    [apply sample_world_well_behaved | vm_compute; reflexivity].
Defined.

Lemma X8_subset_validation_compares_first_witness :
  let ignore := fun f => String.eqb f "package.json" || String.eqb f "index.json" in
  registryOutputPath Sample.host = registryOutputPath Sample.host
  /\ validateTypesRegistryPath Sample.host = validateTypesRegistryPath Sample.host
  /\ (forall f, ignore f = true <-> f = "package.json" \/ f = "index.json")
  /\ (forall path r', EReadJson path r' ∈ Sample.subset_run.1 ->
        inr tt = inr tt :> Err + unit).
Proof.
  intros ignore.
  apply (X8_subset_validation_compares_first Sample.host Sample.notNeeded
           Sample.subset_run.1 Sample.subset_run.2
           (sample_exec _ _)
           (registryOutputPath Sample.host) (validateTypesRegistryPath Sample.host)
           ignore (inr tt)).
  apply (list_elem_of_lookup_2 _ 3). vm_compute. reflexivity.
Defined.

Lemma X9_subset_validation_compares_keys_only_witness :
  (run (Sample.world Sample.untagged)
     (validateIsSubset Sample.host Sample.notNeeded)).2 = Returned tt.
Proof.
  apply (X9_subset_validation_compares_keys_only Sample.host Sample.notNeeded
           (take 4 (run (Sample.world Sample.untagged)
                      (validateIsSubset Sample.host Sample.notNeeded)).1)
           (joinPaths Sample.host [validateTypesRegistryPath Sample.host; "index.json"])
           (joinPaths Sample.host [registryOutputPath Sample.host; "index.json"])
           Sample.registry Sample.registry).
  - apply (run_exec (Sample.world Sample.untagged));
      [apply sample_world_well_behaved | vm_compute; reflexivity].
  - reflexivity.
Defined.

Lemma X10_dry_run_still_validates_and_tags_witness :
  let t := (run (Sample.world Sample.changed)
              (publish Sample.host Sample.client Sample.manifest "0.1.6" true)).1 in
  let o := (run (Sample.world Sample.changed)
              (publish Sample.host Sample.client Sample.manifest "0.1.6" true)).2 in
  exec (publish Sample.host Sample.client Sample.manifest "0.1.6" false)
    (map (with_dry false) t) o
  /\ (o = Returned tt ->
      exists before,
        t = before
            ++ [EClientTag Sample.client packageName "0.1.6" "latest" (inr tt)]
        /\ Forall (fun e => is_tag e = false) before).
Proof.
  intros t o.
  apply (X10_dry_run_still_validates_and_tags Sample.host Sample.client
           Sample.manifest "0.1.6" true false t o).
  apply sample_exec.
Defined.

Lemma X11_tag_only_after_successful_comparison_witness :
  Forall (fun e => is_tag e = false) (Sample.main_run Sample.untagged).1
  \/ exists before client version r after ignore,
       (Sample.main_run Sample.untagged).1
       = before ++ EClientTag client packageName version "latest" r :: after
       /\ Forall (fun e => is_tag e = false) (before ++ after)
       /\ compared Sample.host ignore (inr tt) ∈ before.
Proof.
  apply (X11_tag_only_after_successful_comparison Sample.host Sample.options false
           Sample.fetcher _ (Sample.outcome Sample.untagged)).
  apply sample_exec.
Defined.


Lemma X13_log_file_written_last_witness :
  let t := (Sample.main_run Sample.unchanged).1 in
  (Forall (fun e => operation e <> OWriteLog) t
   /\ (Sample.outcome Sample.unchanged = Returned tt ->
       exists info now,
         t = started Sample.fetcher info now
             ++ [ELog "Was modified less than a week ago, so do nothing." (inr tt)]
         /\ more_than_a_week now (lastModified info) = false))
  \/ exists before logged r,
       t = before ++ [ELogResult (inr logged);
                      EWriteLog "publish-registry.md" logged r]
       /\ Forall (fun e => among before_log_operations e = true) before
       /\ Sample.outcome Sample.unchanged
          = match r with inl e => Thrown e | inr _ => Returned tt end.
Proof.
  apply (X13_log_file_written_last Sample.host Sample.options false
           Sample.fetcher _ (Sample.outcome Sample.unchanged)).
  apply sample_exec.
Defined.

Lemma X14_no_return_without_validation_witness :
  let t := (Sample.main_run Sample.unchanged).1 in
  (exists info now,
     t = started Sample.fetcher info now
         ++ [ELog "Was modified less than a week ago, so do nothing." (inr tt)]
     /\ more_than_a_week now (lastModified info) = false)
  \/ exists ignore, compared Sample.host ignore (inr tt) ∈ t.
Proof.
  apply (X14_no_return_without_validation Sample.host Sample.options false
           Sample.fetcher (Sample.main_run Sample.unchanged).1).
  apply (run_exec (Sample.world Sample.unchanged));
    [apply sample_world_well_behaved | vm_compute; reflexivity].
Defined.
